(** * sqlfluff templaters: position and slice correspondence

    A shallow embedding of [src/sqlfluff/core/templaters/base.py]
    (class [TemplatedFile], class [RawTemplater]) and of the class
    header of the dataform plugin's [DataformTemplater], followed by
    the properties of line/column resolution, of the translation of
    templated slices to source slices, and of templater equality.

    Python [int] is [Z]; [str] is [string]; a [slice] with integer
    bounds is a record; raising is an explicit [result]. *)

From Stdlib Require Import ZArith List String Ascii Bool Lia Arith Sorted.
From Equations Require Import Equations.
Import ListNotations.

Local Open Scope Z_scope.

(** ** Python values and builtins used by the module *)

Inductive exn : Type :=
| IndexError
| ValueError.

Inductive result (A : Type) : Type :=
| Returns (a : A)
| Raises (e : exn).

Arguments Returns {A} a.
Arguments Raises {A} e.

Definition bind {A B : Type} (c : result A) (k : A -> result B) : result B :=
  match c with
  | Returns a => k a
  | Raises e => Raises e
  end.

Notation "x <- c ;; k" := (bind c (fun x => k))
  (at level 61, c at next level, right associativity).

(** [len(l)] *)
Definition len {A : Type} (l : list A) : Z := Z.of_nat (List.length l).

(** [len(s)] on a string *)
Definition str_len (s : string) : Z := Z.of_nat (String.length s).

(** [l[i]]: a negative index counts from the end; out of range raises. *)
Definition py_getitem {A : Type} (l : list A) (i : Z) : result A :=
  let j := if i <? 0 then i + len l else i in
  if (0 <=? j) && (j <? len l) then
    match nth_error l (Z.to_nat j) with
    | Some x => Returns x
    | None => Raises IndexError
    end
  else Raises IndexError.

(** How a slice bound is brought into [0, len]: never raises. *)
Definition py_clamp (n i : Z) : Z :=
  if i <? 0 then Z.max (i + n) 0 else Z.min i n.

(** [l[lo:hi]] with either bound possibly omitted. *)
Definition py_getslice {A : Type} (l : list A) (lo hi : option Z) : list A :=
  let a := match lo with Some i => py_clamp (len l) i | None => 0 end in
  let b := match hi with Some i => py_clamp (len l) i | None => len l end in
  firstn (Z.to_nat (b - a)) (skipn (Z.to_nat a) l).

(** [enumerate(l)] *)
Definition py_enumerate {A : Type} (l : list A) : list (Z * A) :=
  combine (map Z.of_nat (seq 0 (List.length l))) l.

(** [min(...)] and [max(...)] of a finite iterable: empty raises. *)
Definition py_min (l : list Z) : result Z :=
  match l with
  | [] => Raises ValueError
  | x :: r => Returns (fold_left Z.min r x)
  end.

Definition py_max (l : list Z) : result Z :=
  match l with
  | [] => Raises ValueError
  | x :: r => Returns (fold_left Z.max r x)
  end.

(** [s.find(sub, start)]: lowest index at or after [start] where [sub]
    occurs, or [-1]. *)
Definition py_find (s sub : string) (start : Z) : Z :=
  match String.index (Z.to_nat (py_clamp (str_len s) start)) sub s with
  | Some i => Z.of_nat i
  | None => -1
  end.

Definition newline : string := String "010"%char EmptyString.

(** [slice(start, stop)] with integer bounds. *)
Record slice : Type := Slice { start : Z; stop : Z }.

(** An element of [sliced_file]: [Tuple[str, slice, slice]], that is
    (kind, source slice, templated slice). *)
Definition sliced_elem : Type := (string * slice * slice)%type.

Definition elem0 (e : sliced_elem) : string := fst (fst e).
Definition elem1 (e : sliced_elem) : slice := snd (fst e).
Definition elem2 (e : sliced_elem) : slice := snd e.

(** ** iter_indices_of_newlines *)

Lemma index_ge (sub s : string) (n m : nat) :
  String.index n sub s = Some m -> (n <= m)%nat.
Proof.
  revert n m. induction s as [|c s IH]; intros n m E.
  - destruct n; simpl in E; [lia|discriminate].
  - destruct n as [|n]; [lia|]. simpl in E.
    destruct (String.index n sub s) as [k|] eqn:E'; [|discriminate].
    injection E as E; subst m. apply IH in E'. lia.
Qed.

Lemma substring_beyond (s : string) (m k : nat) :
  (String.length s <= m)%nat -> substring m k s = EmptyString.
Proof.
  revert m. induction s as [|c s IH]; intros m Hge.
  - destruct m; simpl; destruct k; reflexivity.
  - destruct m as [|m]; simpl in *; [lia|]. apply IH. lia.
Qed.

Lemma index_lt (sub s : string) (n m : nat) :
  sub <> EmptyString -> String.index n sub s = Some m ->
  (m < String.length s)%nat.
Proof.
  intros Hsub E.
  destruct (le_lt_dec (String.length s) m) as [Hge|]; [|assumption].
  exfalso. apply Hsub.
  rewrite <- (index_correct1 _ _ _ _ E). now apply substring_beyond.
Qed.

Lemma py_find_range (s sub : string) (i p : Z) :
  sub <> EmptyString -> py_find s sub i = p -> 0 <= p ->
  py_clamp (str_len s) i <= p < str_len s.
Proof.
  unfold py_find. intros Hsub Hp Hpos.
  destruct (String.index _ sub s) as [m|] eqn:E; [|lia].
  subst p.
  pose proof (index_ge _ _ _ _ E). pose proof (index_lt _ _ _ _ Hsub E).
  unfold str_len, py_clamp in *. lia.
Qed.

(** Keeps the equation of a scrutinee for the termination argument. *)
Definition inspect {A : Type} (a : A) : {b : A | a = b} := exist _ a eq_refl.

(** The generator, collected: the yielded offsets after [init_idx]. *)
Equations? iter_from (raw_str : string) (init_idx : Z) : list Z
  by wf (Z.to_nat (str_len raw_str - init_idx)) lt :=
iter_from raw_str init_idx with inspect (py_find raw_str newline (init_idx + 1)) := {
  | exist _ nl_pos Heq with Z_ge_dec nl_pos 0 := {
    | left _ => nl_pos :: iter_from raw_str nl_pos
    | right _ => [] } }.
Proof.
  assert (Hne : newline <> EmptyString) by discriminate.
  pose proof (py_find_range raw_str newline (init_idx + 1) _ Hne eq_refl) as H.
  unfold py_clamp in H.
  destruct (Z.ltb_spec (init_idx + 1) 0); lia.
Qed.

Definition iter_indices_of_newlines (raw_str : string) : list Z :=
  iter_from raw_str (-1).

(** ** class TemplatedFile *)

Module TemplatedFile.

Record t : Type := mk {
  source_str : string;
  templated_str : string;
  fname : option string;
  sliced_file : option (list sliced_elem);
  _source_newlines : list Z;
  _templated_newlines : list Z
}.

(** [x or y] on an optional string: [None] and the empty string are falsy. *)
Definition str_or (x : option string) (y : string) : string :=
  match x with
  | None => y
  | Some EmptyString => y
  | Some s => s
  end.

Definition __init__ (source_str : string) (templated_str : option string)
    (fname : option string) (sliced_file : option (list sliced_elem)) : t :=
  let templated_str := str_or templated_str source_str in
  {| source_str := source_str;
     templated_str := templated_str;
     fname := fname;
     sliced_file := sliced_file;
     _source_newlines := iter_indices_of_newlines source_str;
     _templated_newlines := iter_indices_of_newlines templated_str |}.

(** [bool(s)] on a string *)
Definition str_bool (s : string) : bool :=
  match s with
  | EmptyString => false
  | String _ _ => true
  end.

Definition __bool__ (self : t) : bool := str_bool (templated_str self).

Definition __str__ (self : t) : string := templated_str self.

(** The [while] loop of [get_line_pos_of_char_pos]: the final [nl_idx]. *)
Equations? scan_newlines (ref_str : list Z) (char_pos nl_idx : Z) : result Z
  by wf (Z.to_nat (len ref_str - nl_idx)) lt :=
scan_newlines ref_str char_pos nl_idx with Z_lt_dec (nl_idx + 1) (len ref_str) := {
  | right _ => Returns nl_idx
  | left _ with py_getitem ref_str (nl_idx + 1) := {
    | Raises e => Raises e
    | Returns v with Z_lt_dec v char_pos := {
      | left _ => scan_newlines ref_str char_pos (nl_idx + 1)
      | right _ => Returns nl_idx } } }.
Proof. lia. Qed.

Definition get_line_pos_of_char_pos (self : t) (char_pos : Z) (source : bool)
    : result (Z * Z) :=
  let nl_idx := -1 in
  let ref_str := if source then _source_newlines self
                 else _templated_newlines self in
  nl_idx <- scan_newlines ref_str char_pos nl_idx ;;
  if nl_idx >=? 0 then
    n <- py_getitem ref_str nl_idx ;;
    Returns (nl_idx + 2, char_pos - n)
  else
    Returns (1, char_pos + 1).

(** A [for idx, elem in enumerate(...)] loop that records [idx] and
    breaks at the first element satisfying [cond]: the recorded index
    ([acc] when the iterable is empty). *)
Fixpoint scan_until (cond : sliced_elem -> bool)
    (it : list (Z * sliced_elem)) (acc : Z) : Z :=
  match it with
  | [] => acc
  | (idx, elem) :: rest =>
      if cond elem then idx else scan_until cond rest idx
  end.

(** "Find the relevant slices": the list [slices]. *)
Definition relevant_slices (sliced_file : list sliced_elem)
    (template_slice : slice) : list sliced_elem :=
  let start_idx :=
    scan_until (fun elem => stop (elem2 elem) >? start template_slice)
               (py_enumerate sliced_file) 0 in
  let stop_idx :=
    scan_until (fun elem => stop (elem2 elem) >=? stop template_slice)
               (py_enumerate (py_getslice sliced_file (Some start_idx) None)) 0 in
  let stop_idx := stop_idx + (start_idx + 1) in
  py_getslice sliced_file (Some start_idx) (Some stop_idx).

(** [source_start] as the "Start" block computes it from [slices[0]],
    before the check for a slice that is the wrong way around. *)
Definition start_boundary (slices : list sliced_elem) (template_slice : slice)
    : result Z :=
  first <- py_getitem slices 0 ;;
  if String.eqb (elem0 first) "literal" then
    let offset := start template_slice - start (elem2 first) in
    Returns (start (elem1 first) + offset)
  else
    Returns (start (elem1 first)).

(** [source_stop] as the "Stop" block computes it from [slices[-1]]. *)
Definition stop_boundary (slices : list sliced_elem) (template_slice : slice)
    : result Z :=
  last <- py_getitem slices (-1) ;;
  if String.eqb (elem0 last) "literal" then
    let offset := stop (elem2 last) - stop template_slice in
    Returns (stop (elem1 last) - offset)
  else
    Returns (stop (elem1 last)).

Definition template_slice_to_source_slice (self : t) (template_slice : slice)
    : result (slice * bool) :=
  match sliced_file self with
  | None => Returns (template_slice, false)
  | Some [] => Returns (template_slice, false)
  | Some sliced_file =>
      let slices := relevant_slices sliced_file template_slice in
      let is_literal := true in
      first <- py_getitem slices 0 ;;
      let '(source_start, is_literal) :=
        if String.eqb (elem0 first) "literal" then
          let offset := start template_slice - start (elem2 first) in
          (start (elem1 first) + offset, is_literal)
        else
          (start (elem1 first), false) in
      last <- py_getitem slices (-1) ;;
      let '(source_stop, is_literal) :=
        if String.eqb (elem0 last) "literal" then
          let offset := stop (elem2 last) - stop template_slice in
          (stop (elem1 last) - offset, is_literal)
        else
          (stop (elem1 last), false) in
      let is_literal :=
        if existsb (fun elem => negb (String.eqb (elem0 elem) "literal")) slices
        then false else is_literal in
      if source_start >? source_stop then
        source_start <- py_min (map (fun elem => start (elem1 elem)) slices) ;;
        source_stop <- py_max (map (fun elem => stop (elem1 elem)) slices) ;;
        Returns (Slice source_start source_stop, is_literal)
      else
        Returns (Slice source_start source_stop, is_literal)
  end.

End TemplatedFile.

(** ** class RawTemplater and its subclass DataformTemplater *)

(** The templater classes defined in the sources. *)
Inductive templater_class : Type :=
| RawTemplater_class
| DataformTemplater_class.

Definition templater_class_eqb (c d : templater_class) : bool :=
  match c, d with
  | RawTemplater_class, RawTemplater_class => true
  | DataformTemplater_class, DataformTemplater_class => true
  | _, _ => false
  end.

(** The base classes named in each [class] statement. *)
Definition bases (c : templater_class) : list templater_class :=
  match c with
  | RawTemplater_class => []
  | DataformTemplater_class => [RawTemplater_class]
  end.

(** The method resolution order of a class: itself, then its ancestors. *)
Definition mro (c : templater_class) : list templater_class :=
  match c with
  | RawTemplater_class => [RawTemplater_class]
  | DataformTemplater_class => DataformTemplater_class :: bases DataformTemplater_class
  end.

(** A templater instance: its class and the attributes set by
    [DataformTemplater.__init__] (absent on a plain [RawTemplater]). *)
Record templater : Type := {
  __class__ : templater_class;
  project_id : option string;
  dataset_id : option string
}.

(** [isinstance(obj, cls)] *)
Definition isinstance (obj : templater) (cls : templater_class) : bool :=
  existsb (templater_class_eqb cls) (mro (__class__ obj)).

Module RawTemplater.

Definition __eq__ (self other : templater) : bool :=
  isinstance other (__class__ self).

(** [process(in_str, fname, config)]: the file and the (empty) list of
    templating errors; [config] is not used. *)
Definition process (self : templater) (in_str : string) (fname : option string)
    : TemplatedFile.t * list exn :=
  (TemplatedFile.__init__ in_str None fname None, []).

End RawTemplater.

(** [issubclass(c, d)]: [d] is [c] or is reached from [c] through the
    base classes. *)
Inductive subclass : templater_class -> templater_class -> Prop :=
| subclass_refl (c : templater_class) : subclass c c
| subclass_base (c b d : templater_class) :
    In b (bases c) -> subclass b d -> subclass c d.

(** [v == w] as the interpreter evaluates it on two templaters, both of
    which inherit [RawTemplater.__eq__]: when the class of [w] is a
    proper subclass of the class of [v] the method of [w] is tried
    first, with the operands swapped; the method never returns
    [NotImplemented], so its answer is the result. *)
Definition py_eq (v w : templater) : bool :=
  if negb (templater_class_eqb (__class__ v) (__class__ w))
     && isinstance w (__class__ v)
  then RawTemplater.__eq__ w v
  else RawTemplater.__eq__ v w.

(** ** The registry of templaters *)

(** The class attribute [name]. *)
Definition class_name (cls : templater_class) : string :=
  match cls with
  | RawTemplater_class => "raw"
  | DataformTemplater_class => "dataform"
  end.

(** [_templater_lookup]: a [dict] from names to classes, kept in
    insertion order. *)
Definition lookup_table : Type := list (string * templater_class).

(** [d[k]]; [None] stands for [KeyError]. *)
Fixpoint dict_get (d : lookup_table) (k : string) : option templater_class :=
  match d with
  | [] => None
  | (k', v) :: r => if String.eqb k' k then Some v else dict_get r k
  end.

(** [d[k] = v]: a key already present keeps its place. *)
Fixpoint dict_set (d : lookup_table) (k : string) (v : templater_class)
    : lookup_table :=
  match d with
  | [] => [(k, v)]
  | (k', v') :: r =>
      if String.eqb k' k then (k', v) :: r else (k', v') :: dict_set r k v
  end.

(** [d.keys()] *)
Definition dict_keys (d : lookup_table) : list string := map fst d.

(** Instantiating a class with keyword arguments: neither constructor
    looks at them;
    [DataformTemplater.__init__] sets [project_id] and [dataset_id] to
    [None]. *)
Definition instantiate (cls : templater_class) : templater :=
  {| __class__ := cls; project_id := None; dataset_id := None |}.

(** [register_templater(cls)]: the registry after the call and the
    returned class. *)
Definition register_templater (cls : templater_class)
    (_templater_lookup : lookup_table) : lookup_table * templater_class :=
  let n := class_name cls in
  (dict_set _templater_lookup n cls, cls).

(** [templater_selector(s, **kwargs)] against the registry. *)
Definition templater_selector (s : option string)
    (_templater_lookup : lookup_table) : result templater :=
  let s := TemplatedFile.str_or s "jinja" in
  match dict_get _templater_lookup s with
  | Some cls => Returns (instantiate cls)
  | None => Raises ValueError
  end.

(** The registries that calls of [register_templater] can build from
    the empty one. *)
Inductive registered : lookup_table -> Prop :=
| registered_empty : registered []
| registered_step (cls : templater_class) (d : lookup_table) :
    registered d -> registered (fst (register_templater cls d)).

(** The registry once the module is loaded: the decorator has run on
    [RawTemplater] only. *)
Definition lookup_at_import : lookup_table :=
  fst (register_templater RawTemplater_class []).

(** ** class DataformTemplater: the text rewriting methods *)

(** [s] starts with [p]: what follows [p] in [s]. *)
Fixpoint strip_prefix (p s : string) : option string :=
  match p with
  | EmptyString => Some s
  | String a p' =>
      match s with
      | EmptyString => None
      | String b s' => if Ascii.eqb a b then strip_prefix p' s' else None
      end
  end.

(** The longest run of characters satisfying [pred] at the front of
    [s], and what follows it: how a greedy [[...]*] consumes. *)
Fixpoint span (pred : ascii -> bool) (s : string) : string * string :=
  match s with
  | EmptyString => (EmptyString, EmptyString)
  | String c s' =>
      if pred c then (String c (fst (span pred s')), snd (span pred s'))
      else (EmptyString, s)
  end.

(** [\s] in a [str] pattern, on code points below 256: tab, line feed,
    vertical tab, form feed, carriage return, the four separators
    28..31, space, next line (133) and no-break space (160). *)
Definition is_space (c : ascii) : bool :=
  existsb (Ascii.eqb c)
    [ "009"; "010"; "011"; "012"; "013"; "028"; "029"; "030"; "031";
      "032"; "133"; "160" ]%char.

(** [s.count(c)] for a one-character [c]. *)
Fixpoint count_char (c : ascii) (s : string) : nat :=
  match s with
  | EmptyString => 0%nat
  | String b s' => if Ascii.eqb b c then S (count_char c s') else count_char c s'
  end.

(** [c * n] for a one-character string [c]. *)
Fixpoint repeat_char (c : ascii) (n : nat) : string :=
  match n with
  | O => EmptyString
  | S n' => String c (repeat_char c n')
  end.

(** [str(x)] inside an f-string, for an attribute that is [None] or a
    string. *)
Definition format_attr (x : option string) : string :=
  match x with
  | Some v => v
  | None => "None"
  end.

Module DataformTemplater.

(** A match, at the very front of [s], of the pattern of
    [_replace_blocks_with_newline] (the keyword [config] or [js], any
    white space, an opening brace, group 2 made of any characters other
    than a closing brace, a closing brace; [DOTALL] changes nothing for
    it): group 2 and what follows the match.  The keyword alternatives
    exclude one another, white space cannot be an opening brace and the
    class [[^}]] cannot be a closing brace, so giving back characters
    never turns a failure into a match. *)
Definition match_block (s : string) : option (string * string) :=
  match (match strip_prefix "config" s with
         | Some r => Some r
         | None => strip_prefix "js" s
         end) with
  | None => None
  | Some r =>
      match strip_prefix "{" (snd (span is_space r)) with
      | None => None
      | Some r =>
          let content := span (fun c => negb (Ascii.eqb c "}")) r in
          match strip_prefix "}" (snd content) with
          | None => None
          | Some r => Some (fst content, r)
          end
      end
  end.

(** The inner function [replace] of [_replace_blocks_with_newline], on
    group 2 of the match. *)
Definition replace (block_content : string) : string :=
  let lines := count_char "010" block_content in
  repeat_char "010" lines.

(** A match, at the very front of [s], of the pattern of
    [replace_ref_with_bq_table] (a dollar sign, an opening brace, [ref],
    an opening parenthesis, group 1 between single quotes, optionally a
    comma, a space and group 2 between single quotes, a closing
    parenthesis, a closing brace; each group is one or more characters
    other than a single quote): group 1, group 2 ([None] when the
    optional part took no part in the match) and what follows the
    match.  When the optional part matches but the closing parenthesis
    does not follow, the pattern is tried again without it. *)
Definition match_ref (s : string) : option (string * option string * string) :=
  let not_quote := fun c => negb (Ascii.eqb c "'") in
  match strip_prefix "${ref('" s with
  | None => None
  | Some r =>
      let g1 := span not_quote r in
      match fst g1 with
      | EmptyString => None
      | String _ _ =>
          match strip_prefix "'" (snd g1) with
          | None => None
          | Some r1 =>
              let without_optional :=
                match strip_prefix ")}" r1 with
                | Some r3 => Some (fst g1, None, r3)
                | None => None
                end in
              match strip_prefix ", '" r1 with
              | None => without_optional
              | Some r2 =>
                  let g2 := span not_quote r2 in
                  match fst g2 with
                  | EmptyString => without_optional
                  | String _ _ =>
                      match strip_prefix "'" (snd g2) with
                      | None => without_optional
                      | Some r3 =>
                          match strip_prefix ")}" r3 with
                          | Some r4 => Some (fst g1, Some (fst g2), r4)
                          | None => without_optional
                          end
                      end
                  end
              end
          end
      end
  end.

(** The inner function [ref_to_table] of [replace_ref_with_bq_table],
    on the two groups of the match. *)
Definition ref_to_table (self : templater) (group1 : string)
    (group2 : option string) : string :=
  let '(dataset, model_name) :=
    match group2 with
    | Some g2 => (group1, g2)
    | None => (format_attr (dataset_id self), group1)
    end in
  ("`" ++ format_attr (project_id self) ++ "." ++ dataset ++ "."
       ++ model_name ++ "`")%string.

Lemma strip_prefix_length (p s r : string) :
  strip_prefix p s = Some r ->
  String.length s = (String.length p + String.length r)%nat.
Proof.
  revert s. induction p as [|a p IH]; intros s H; simpl in *.
  - now injection H as ->.
  - destruct s as [|b s]; [discriminate|].
    destruct (Ascii.eqb a b); [|discriminate].
    simpl. f_equal. now apply IH.
Qed.

Lemma span_length (pred : ascii -> bool) (s : string) :
  String.length s =
  (String.length (fst (span pred s)) + String.length (snd (span pred s)))%nat.
Proof.
  induction s as [|c s IH]; simpl; [reflexivity|].
  destruct (pred c); simpl; [now f_equal|reflexivity].
Qed.

Lemma match_block_shorter (s content rest : string) :
  match_block s = Some (content, rest) ->
  (String.length rest < String.length s)%nat.
Proof.
  unfold match_block. intros H.
  destruct (match strip_prefix "config" s with
            | Some r => Some r
            | None => strip_prefix "js" s
            end) as [r|] eqn:Ekw; [|discriminate].
  assert (Hkw : (String.length r < String.length s)%nat).
  { destruct (strip_prefix "config" s) as [r'|] eqn:E.
    - injection Ekw as <-. apply strip_prefix_length in E. simpl in E. lia.
    - apply strip_prefix_length in Ekw. simpl in Ekw. lia. }
  pose proof (span_length is_space r) as Hws.
  destruct (strip_prefix "{" (snd (span is_space r))) as [r1|] eqn:Eopen;
    [|discriminate].
  apply strip_prefix_length in Eopen.
  pose proof (span_length (fun c => negb (Ascii.eqb c "}")) r1) as Hc.
  cbv zeta in H.
  destruct (strip_prefix "}" (snd (span _ r1))) as [r2|] eqn:Eclose;
    [|discriminate].
  apply strip_prefix_length in Eclose. injection H as _ <-.
  simpl in *. lia.
Qed.

Lemma match_ref_shorter (s g1 rest : string) (g2 : option string) :
  match_ref s = Some (g1, g2, rest) ->
  (String.length rest < String.length s)%nat.
Proof.
  unfold match_ref. cbv zeta. intros H.
  destruct (strip_prefix "${ref('" s) as [r|] eqn:E0; [|discriminate].
  apply strip_prefix_length in E0.
  pose proof (span_length (fun c => negb (Ascii.eqb c "'")) r) as H1.
  destruct (fst (span _ r)) as [|c0 t0] eqn:Eg1; [discriminate|].
  destruct (strip_prefix "'" (snd (span _ r))) as [r1|] eqn:E1; [|discriminate].
  apply strip_prefix_length in E1.
  assert (Hwo : forall x,
            match strip_prefix ")}" r1 with
            | Some r3 => Some (String c0 t0, @None string, r3)
            | None => None
            end = Some x ->
            (String.length (snd x) < String.length s)%nat).
  { intros x Hx. destruct (strip_prefix ")}" r1) as [r3|] eqn:E3; [|discriminate].
    apply strip_prefix_length in E3. injection Hx as <-. simpl in *. lia. }
  destruct (strip_prefix ", '" r1) as [r2|] eqn:E2;
    [|exact (Hwo _ H)].
  apply strip_prefix_length in E2.
  pose proof (span_length (fun c => negb (Ascii.eqb c "'")) r2) as H2.
  destruct (fst (span _ r2)) as [|c2 t2] eqn:Eg2; [exact (Hwo _ H)|].
  destruct (strip_prefix "'" (snd (span _ r2))) as [r3|] eqn:E3;
    [|exact (Hwo _ H)].
  apply strip_prefix_length in E3.
  destruct (strip_prefix ")}" r3) as [r4|] eqn:E4; [|exact (Hwo _ H)].
  apply strip_prefix_length in E4. injection H as _ _ <-.
  simpl in *. lia.
Qed.

(** [re.sub(pattern, replace, in_str)]: at each position, from left to
    right, a match is replaced and the scan resumes after it; a
    character where no match starts is copied. *)
Equations? _replace_blocks_with_newline (self : templater) (in_str : string)
    : string by wf (String.length in_str) lt :=
_replace_blocks_with_newline self in_str with inspect (match_block in_str) := {
  | exist _ (Some (block_content, rest)) _ =>
      (replace block_content ++ _replace_blocks_with_newline self rest)%string
  | exist _ None _ with in_str := {
    | EmptyString => EmptyString
    | String c rest => String c (_replace_blocks_with_newline self rest) } }.
Proof.
  eapply match_block_shorter. eassumption.
Qed.

(** [re.sub(pattern, ref_to_table, sql)], in the same way. *)
Equations? replace_ref_with_bq_table (self : templater) (sql : string)
    : string by wf (String.length sql) lt :=
replace_ref_with_bq_table self sql with inspect (match_ref sql) := {
  | exist _ (Some (group1, group2, rest)) _ =>
      (ref_to_table self group1 group2 ++ replace_ref_with_bq_table self rest)%string
  | exist _ None _ with sql := {
    | EmptyString => EmptyString
    | String c rest => String c (replace_ref_with_bq_table self rest) } }.
Proof.
  eapply match_ref_shorter. eassumption.
Qed.

(** [sequence_files(fnames, config)]: the templater after the call and
    the returned names; [config] is [get_section] of the configuration
    object. *)
Definition sequence_files (self : templater) (fnames : list string)
    (config : list string -> option string) : templater * list string :=
  ({| __class__ := __class__ self;
      project_id :=
        config ["templater"; class_name (__class__ self); "project_id"]%string;
      dataset_id :=
        config ["templater"; class_name (__class__ self); "dataset_id"]%string |},
   fnames).

End DataformTemplater.

(** ** Line breaks of a text, stated on the text itself *)

(** The character of [s] at index [i] is a line break. *)
Definition is_newline_at (s : string) (i : nat) : bool :=
  match String.get i s with
  | Some c => Ascii.eqb c "010"%char
  | None => false
  end.

(** [i] is the offset of a line break of [s]. *)
Definition newline_offset (s : string) (i : Z) : Prop :=
  0 <= i /\ is_newline_at s (Z.to_nat i) = true.

(** All offsets of line breaks of [s], ascending. *)
Definition newline_offsets (s : string) : list Z :=
  map Z.of_nat (filter (is_newline_at s) (seq 0 (String.length s))).

(** The number of line breaks of [s] at offsets strictly below [n]. *)
Definition newlines_before (s : string) (n : Z) : Z :=
  len (filter (is_newline_at s) (seq 0 (Z.to_nat n))).

(** The number of line breaks of [s] at offsets up to and including [n]. *)
Definition newlines_upto (s : string) (n : Z) : Z :=
  newlines_before s (n + 1).

(** [n] is the greatest offset of a line break of [s] strictly below
    [offset]. *)
Definition greatest_newline_below (s : string) (offset n : Z) : Prop :=
  newline_offset s n /\ n < offset /\
  forall m, newline_offset s m -> m < offset -> m <= n.

(** The text a line/column query is resolved against. *)
Definition selected_text (self : TemplatedFile.t) (source : bool) : string :=
  if source then TemplatedFile.source_str self
  else TemplatedFile.templated_str self.

(** ** Quantities used to state and prove the properties *)

(** The number of leading elements of [l] that are below [char_pos]. *)
Fixpoint leading_below (l : list Z) (char_pos : Z) : nat :=
  match l with
  | [] => 0%nat
  | x :: r => if x <? char_pos then S (leading_below r char_pos) else 0%nat
  end.

(** Line and column in closed form, for any newline index. *)
Definition line_pos_of (ref_str : list Z) (char_pos : Z) : Z * Z :=
  match leading_below ref_str char_pos with
  | O => (1, char_pos + 1)
  | S k => (Z.of_nat k + 2, char_pos - nth k ref_str 0)
  end.

(** [lo] is the least of the values [f e] over the elements of [l]. *)
Definition least_over (f : sliced_elem -> Z) (l : list sliced_elem) (lo : Z)
    : Prop :=
  (exists e, In e l /\ f e = lo) /\ forall e, In e l -> lo <= f e.

(** [hi] is the greatest of the values [f e] over the elements of [l]. *)
Definition greatest_over (f : sliced_elem -> Z) (l : list sliced_elem) (hi : Z)
    : Prop :=
  (exists e, In e l /\ f e = hi) /\ forall e, In e l -> f e <= hi.

(** The kind tag of a [sliced_file] element is ["literal"]. *)
Definition is_literal_elem (elem : sliced_elem) : bool :=
  String.eqb (elem0 elem) "literal".

(** Every character of [s] satisfies [pred]. *)
Fixpoint all_chars (pred : ascii -> bool) (s : string) : bool :=
  match s with
  | EmptyString => true
  | String c s' => pred c && all_chars pred s'
  end.

(** The templated slices of the elements follow one another from the
    offset [p]: each starts where the previous one stops, and none is
    reversed. *)
Fixpoint contiguous_from (p : Z) (l : list sliced_elem) : Prop :=
  match l with
  | [] => True
  | e :: r =>
      start (elem2 e) = p /\ start (elem2 e) <= stop (elem2 e) /\
      contiguous_from (stop (elem2 e)) r
  end.

(** Where the templated slice of the last element stops ([p] for an
    empty list). *)
Definition templated_end (p : Z) (l : list sliced_elem) : Z :=
  fold_left (fun _ e => stop (elem2 e)) l p.

(** ** Example files *)

(** The source and templated texts of the dataform example: a
    reference call replaced by a table name. *)
Definition ref_source : string := "SELECT * FROM ${ref('t')}".
Definition ref_templated : string := "SELECT * FROM `p.d.t`".

Definition ref_sliced_file : list sliced_elem :=
  [ ("literal"%string, Slice 0 14, Slice 0 14);
    ("templated"%string, Slice 14 26, Slice 14 21) ].

Definition ref_file : TemplatedFile.t :=
  TemplatedFile.__init__ ref_source (Some ref_templated) (Some "x.sqlx"%string)
    (Some ref_sliced_file).

(** Two literal pieces emitted in the opposite order of the source. *)
Definition swapped_source : string := "01234-----+++++-----56789".
Definition swapped_templated : string := "5678901234".

Definition swapped_sliced_file : list sliced_elem :=
  [ ("literal"%string, Slice 20 25, Slice 0 5);
    ("literal"%string, Slice 0 5, Slice 5 10) ].

Definition swapped_file : TemplatedFile.t :=
  TemplatedFile.__init__ swapped_source (Some swapped_templated) None
    (Some swapped_sliced_file).

(** A three-line text. *)
Definition three_lines : string :=
  String "a" (String "010" (String "b" (String "c" (String "010"
    (String "d" EmptyString))))).

(** A configuration with project [p] and dataset [d]. *)
Definition example_config (section : list string) : option string :=
  match section with
  | [_; _; key] =>
      if String.eqb key "project_id" then Some "p"%string else Some "d"%string
  | _ => None
  end.

Definition raw_instance : templater :=
  {| __class__ := RawTemplater_class; project_id := None; dataset_id := None |}.

Definition dataform_instance : templater :=
  {| __class__ := DataformTemplater_class;
     project_id := Some "p"%string; dataset_id := Some "d"%string |}.

(** ** Auxiliary facts: strings and filtered ranges *)

Lemma substring_one (s : string) (p : nat) :
  substring p 1 s = newline <-> is_newline_at s p = true.
Proof.
  unfold is_newline_at, newline. revert p.
  induction s as [|c s IH]; intros p.
  - destruct p; simpl; split; discriminate.
  - destruct p as [|p]; simpl.
    + destruct s; simpl; split.
      * intros E. injection E as ->. reflexivity.
      * intros E. apply Ascii.eqb_eq in E. now subst.
      * intros E. injection E as ->. reflexivity.
      * intros E. apply Ascii.eqb_eq in E. now subst.
    + apply IH.
Qed.

Lemma is_newline_at_lt (s : string) (p : nat) :
  is_newline_at s p = true -> (p < String.length s)%nat.
Proof.
  unfold is_newline_at. revert p.
  induction s as [|c s IH]; intros p; simpl.
  - destruct p; discriminate.
  - destruct p as [|p]; [lia|]. intros H. apply IH in H. lia.
Qed.

Lemma filter_seq_none (f : nat -> bool) (k n : nat) :
  (forall q, (k <= q < k + n)%nat -> f q = false) ->
  filter f (seq k n) = [].
Proof.
  revert k. induction n as [|n IH]; intros k H; simpl; [reflexivity|].
  rewrite (H k) by lia. apply IH. intros q Hq. apply H. lia.
Qed.

Lemma filter_seq_first (f : nat -> bool) (k n m : nat) :
  (k <= m < k + n)%nat ->
  (forall q, (k <= q < m)%nat -> f q = false) ->
  f m = true ->
  filter f (seq k n) = m :: filter f (seq (S m) (k + n - S m)).
Proof.
  revert k. induction n as [|n IH]; intros k Hm Hbelow Ht; [lia|].
  simpl. destruct (Nat.eq_dec k m) as [->|Hne].
  - rewrite Ht. do 3 f_equal. lia.
  - rewrite (Hbelow k) by lia.
    rewrite (IH (S k)); [|lia| |assumption].
    + do 3 f_equal. lia.
    + intros q Hq. apply Hbelow. lia.
Qed.

Lemma not_newline_at (s : string) (q : nat) :
  substring q 1 s <> newline -> is_newline_at s q = false.
Proof.
  intros H. destruct (is_newline_at s q) eqn:E; [|reflexivity].
  exfalso. apply H. now apply substring_one.
Qed.

Lemma py_find_found (s : string) (k p : Z) :
  0 <= k -> py_find s newline k = p -> p >= 0 ->
  exists m : nat,
    p = Z.of_nat m /\ (Z.to_nat k <= m < String.length s)%nat /\
    is_newline_at s m = true /\
    forall q, (Z.to_nat k <= q < m)%nat -> is_newline_at s q = false.
Proof.
  unfold py_find, py_clamp, str_len. intros Hk Hp Hpos.
  destruct (Z.ltb_spec k 0) as [|_]; [lia|].
  destruct (String.index _ newline s) as [m|] eqn:E; [|lia].
  assert (Hne : newline <> EmptyString) by discriminate.
  pose proof (index_ge _ _ _ _ E) as Hge.
  pose proof (index_lt _ _ _ _ Hne E) as Hlt.
  exists m. repeat split; try lia.
  - apply substring_one. exact (index_correct1 _ _ _ _ E).
  - intros q Hq. apply not_newline_at.
    apply (index_correct2 _ _ _ _ E); lia.
Qed.

Lemma py_find_missing (s : string) (k : Z) :
  0 <= k -> ~ py_find s newline k >= 0 ->
  forall q, (Z.to_nat k <= q)%nat -> is_newline_at s q = false.
Proof.
  unfold py_find, py_clamp, str_len. intros Hk Hp q Hq.
  destruct (Z.ltb_spec k 0) as [|_]; [lia|].
  destruct (String.index _ newline s) as [m|] eqn:E; [lia|].
  apply not_newline_at.
  apply (index_correct3 _ q _ _ E); [discriminate|lia].
Qed.

Lemma iter_from_spec (s : string) (i : Z) :
  -1 <= i ->
  iter_from s i =
  map Z.of_nat
    (filter (is_newline_at s)
       (seq (Z.to_nat (i + 1)) (String.length s - Z.to_nat (i + 1)))).
Proof.
  funelim (iter_from s i); intros Hi; clear Heqcall.
  - destruct (py_find_found raw_str (init_idx + 1) _ ltac:(lia) eq_refl g)
      as (m & Hm & Hrange & Hnl & Hbelow).
    rewrite H by lia. rewrite Hm.
    rewrite (filter_seq_first _ (Z.to_nat (init_idx + 1)) _ m);
      try assumption; [|lia].
    simpl map. do 4 f_equal; lia.
  - rewrite filter_seq_none; [reflexivity|].
    intros q Hq. apply (py_find_missing raw_str (init_idx + 1)); [lia| |lia].
    assumption.
Qed.

(** The generator yields exactly the offsets of the line breaks of the
    text, in ascending order. *)
Lemma iter_indices_of_newlines_spec (s : string) :
  iter_indices_of_newlines s = newline_offsets s.
Proof.
  unfold iter_indices_of_newlines, newline_offsets.
  rewrite iter_from_spec by lia. simpl. now rewrite Nat.sub_0_r.
Qed.

(** ** Auxiliary facts: the scan over the newline index *)

Lemma leading_below_le (l : list Z) (cp : Z) :
  (leading_below l cp <= List.length l)%nat.
Proof.
  induction l as [|x r IH]; simpl; [lia|].
  destruct (x <? cp); lia.
Qed.

Lemma py_getitem_in_range {A : Type} (l : list A) (j : Z) :
  0 <= j < len l ->
  exists v, py_getitem l j = Returns v /\ nth_error l (Z.to_nat j) = Some v.
Proof.
  unfold py_getitem, len. intros Hj.
  destruct (Z.ltb_spec j 0) as [|_]; [lia|].
  destruct (Z.leb_spec 0 j); [|lia].
  destruct (Z.ltb_spec j (Z.of_nat (List.length l))); [|lia]. simpl.
  destruct (nth_error l (Z.to_nat j)) as [v|] eqn:E.
  - now exists v.
  - apply nth_error_None in E. lia.
Qed.

Lemma skipn_nth_error {A : Type} (l : list A) (n : nat) (v : A) :
  nth_error l n = Some v -> skipn n l = v :: skipn (S n) l.
Proof.
  revert n. induction l as [|x r IH]; intros n E.
  - destruct n; discriminate.
  - destruct n as [|n]; simpl in *.
    + now injection E as ->.
    + now apply IH.
Qed.

Lemma scan_newlines_run (ref_str : list Z) (char_pos nl_idx : Z) :
  -1 <= nl_idx ->
  TemplatedFile.scan_newlines ref_str char_pos nl_idx =
  Returns (nl_idx +
           Z.of_nat (leading_below (skipn (Z.to_nat (nl_idx + 1)) ref_str)
                                   char_pos)).
Proof.
  funelim (TemplatedFile.scan_newlines ref_str char_pos nl_idx);
    intros Hi; try clear Heqcall.
  - rewrite skipn_all2 by (unfold len in *; lia). simpl. f_equal. lia.
  - destruct (py_getitem_in_range ref_str (nl_idx + 1)) as (w & Hw & _);
      [unfold len in *; lia|congruence].
  - destruct (py_getitem_in_range ref_str (nl_idx + 1)) as (w & Hw & Hnth);
      [unfold len in *; lia|].
    assert (w = v) by congruence. subst w.
    rewrite H by lia.
    rewrite (skipn_nth_error _ _ _ Hnth). cbn [leading_below].
    destruct (Z.ltb_spec v char_pos); [|lia].
    replace (Z.to_nat (nl_idx + 1 + 1)) with (S (Z.to_nat (nl_idx + 1))) by lia.
    f_equal. lia.
  - destruct (py_getitem_in_range ref_str (nl_idx + 1)) as (w & Hw & Hnth);
      [unfold len in *; lia|].
    assert (w = v) by congruence. subst w.
    rewrite (skipn_nth_error _ _ _ Hnth). cbn [leading_below].
    destruct (Z.ltb_spec v char_pos); [lia|]. f_equal. lia.
Qed.

Lemma get_line_pos_of_char_pos_run (self : TemplatedFile.t) (char_pos : Z)
    (source : bool) :
  TemplatedFile.get_line_pos_of_char_pos self char_pos source =
  Returns (line_pos_of (if source then TemplatedFile._source_newlines self
                        else TemplatedFile._templated_newlines self) char_pos).
Proof.
  unfold TemplatedFile.get_line_pos_of_char_pos, line_pos_of.
  set (ref_str := if source then _ else _).
  rewrite scan_newlines_run by lia. simpl skipn. cbn [bind].
  pose proof (leading_below_le ref_str char_pos) as Hle.
  destruct (leading_below ref_str char_pos) as [|k] eqn:E.
  - reflexivity.
  - destruct (Z.geb_spec (-1 + Z.of_nat (S k)) 0) as [_|]; [|lia].
    destruct (py_getitem_in_range ref_str (-1 + Z.of_nat (S k)))
      as (w & Hw & Hnth); [unfold len; lia|].
    rewrite Hw. cbn [bind].
    replace (Z.to_nat (-1 + Z.of_nat (S k))) with k in Hnth by lia.
    rewrite (nth_error_nth _ _ 0 Hnth). do 2 f_equal. lia.
Qed.

Lemma line_pos_of_line (l : list Z) (cp : Z) :
  fst (line_pos_of l cp) = Z.of_nat (leading_below l cp) + 1.
Proof.
  unfold line_pos_of. destruct (leading_below l cp); simpl fst; lia.
Qed.

Lemma leading_below_app (A B : list Z) (cp : Z) :
  Forall (fun x => x < cp) A ->
  leading_below (A ++ B) cp = (List.length A + leading_below B cp)%nat.
Proof.
  induction 1 as [|x A Hx _ IH]; simpl; [reflexivity|].
  destruct (Z.ltb_spec x cp); [|lia]. now rewrite IH.
Qed.

Lemma leading_below_stop (B : list Z) (cp : Z) :
  Forall (fun x => cp <= x) B -> leading_below B cp = 0%nat.
Proof.
  destruct 1 as [|x B Hx _]; simpl; [reflexivity|].
  destruct (Z.ltb_spec x cp); [lia|reflexivity].
Qed.

Lemma leading_below_mono (l : list Z) (o1 o2 : Z) :
  o1 <= o2 -> (leading_below l o1 <= leading_below l o2)%nat.
Proof.
  intros Ho. induction l as [|x r IH]; simpl; [lia|].
  destruct (Z.ltb_spec x o1), (Z.ltb_spec x o2); lia.
Qed.

Lemma leading_below_gap (l : list Z) (o1 o2 : Z) :
  o1 <= o2 -> (forall x, In x l -> ~ (o1 <= x < o2)) ->
  leading_below l o1 = leading_below l o2.
Proof.
  intros Ho. induction l as [|x r IH]; intros Hgap; simpl; [reflexivity|].
  pose proof (Hgap x (or_introl eq_refl)).
  destruct (Z.ltb_spec x o1), (Z.ltb_spec x o2); try lia.
  f_equal. apply IH. intros y Hy. apply Hgap. now right.
Qed.

Lemma in_filtered_range (s : string) (a n : nat) (x : Z) :
  In x (map Z.of_nat (filter (is_newline_at s) (seq a n))) ->
  newline_offset s x /\ Z.of_nat a <= x < Z.of_nat (a + n).
Proof.
  rewrite in_map_iff. intros (q & <- & Hq).
  apply filter_In in Hq. destruct Hq as [Hq Hf].
  apply in_seq in Hq. unfold newline_offset.
  rewrite Nat2Z.id. repeat split; try lia; assumption.
Qed.

Lemma in_newline_offsets (s : string) (x : Z) :
  In x (newline_offsets s) -> newline_offset s x.
Proof.
  intros H. now apply in_filtered_range in H.
Qed.

(** The newline index splits around any of its members. *)
Lemma newline_offsets_split (s : string) (m : nat) :
  is_newline_at s m = true ->
  newline_offsets s =
  map Z.of_nat (filter (is_newline_at s) (seq 0 m)) ++
  Z.of_nat m ::
  map Z.of_nat (filter (is_newline_at s) (seq (S m) (String.length s - S m))).
Proof.
  intros Hm. pose proof (is_newline_at_lt _ _ Hm) as Hlt.
  unfold newline_offsets.
  replace (String.length s) with (m + (String.length s - m))%nat at 1 by lia.
  rewrite seq_app, filter_app, map_app. f_equal. simpl plus.
  rewrite (filter_seq_first _ m _ m); [|lia|intros; lia|assumption].
  simpl map. do 4 f_equal. lia.
Qed.

Lemma leading_below_at_newline (s : string) (m : nat) :
  is_newline_at s m = true ->
  leading_below (newline_offsets s) (Z.of_nat m) =
  List.length (filter (is_newline_at s) (seq 0 m)).
Proof.
  intros Hm. rewrite (newline_offsets_split s m Hm).
  rewrite leading_below_app.
  - cbn [leading_below]. rewrite Z.ltb_irrefl, length_map. lia.
  - apply Forall_forall. intros x Hx.
    apply in_filtered_range in Hx. lia.
Qed.

Lemma line_pos_of_greatest (s : string) (cp n : Z) :
  greatest_newline_below s cp n ->
  line_pos_of (newline_offsets s) cp = (newlines_before s n + 2, cp - n).
Proof.
  intros ((Hn0 & Hnl) & Hlt & Hmax).
  unfold line_pos_of, newlines_before, len.
  rewrite (newline_offsets_split s _ Hnl). rewrite Z2Nat.id by lia.
  set (A := map Z.of_nat (filter (is_newline_at s) (seq 0 (Z.to_nat n)))).
  set (B := map Z.of_nat (filter _ (seq (S _) _))).
  assert (HA : Forall (fun x => x < cp) A).
  { apply Forall_forall. intros x Hx. apply in_filtered_range in Hx. lia. }
  assert (HB : Forall (fun x => cp <= x) B).
  { apply Forall_forall. intros x Hx. apply in_filtered_range in Hx.
    destruct Hx as [Hx Hr].
    destruct (Z_lt_le_dec x cp) as [Hc|]; [|assumption].
    specialize (Hmax x Hx Hc). lia. }
  rewrite (leading_below_app A (n :: B) cp HA). cbn [leading_below].
  destruct (Z.ltb_spec n cp); [|lia].
  rewrite (leading_below_stop B cp HB).
  replace (List.length A + 1)%nat with (S (List.length A)) by lia.
  rewrite nth_middle. unfold A. rewrite length_map. reflexivity.
Qed.

Lemma line_pos_of_first_line (s : string) (cp : Z) :
  (forall n, newline_offset s n -> cp <= n) ->
  line_pos_of (newline_offsets s) cp = (1, cp + 1).
Proof.
  intros H. unfold line_pos_of. rewrite leading_below_stop; [reflexivity|].
  apply Forall_forall. intros x Hx. apply H. now apply in_newline_offsets.
Qed.

Lemma line_pos_of_mono (l : list Z) (o1 o2 : Z) :
  o1 < o2 ->
  fst (line_pos_of l o1) <= fst (line_pos_of l o2) /\
  (fst (line_pos_of l o1) = fst (line_pos_of l o2) ->
   snd (line_pos_of l o1) < snd (line_pos_of l o2)).
Proof.
  intros Ho. pose proof (leading_below_mono l o1 o2 ltac:(lia)) as Hm.
  unfold line_pos_of.
  destruct (leading_below l o1) as [|k1], (leading_below l o2) as [|k2];
    simpl fst; simpl snd; split; try lia.
  intros E. replace k2 with k1 by lia. lia.
Qed.

(** ** Auxiliary facts: the window of relevant slices *)

Lemma scan_until_range (cond : sliced_elem -> bool) (l : list sliced_elem)
    (a : nat) (acc : Z) :
  l <> [] ->
  Z.of_nat a <=
    TemplatedFile.scan_until cond
      (combine (map Z.of_nat (seq a (List.length l))) l) acc
    < Z.of_nat a + len l.
Proof.
  unfold len. revert a acc.
  induction l as [|x r IH]; intros a acc Hne; [congruence|].
  cbn [List.length seq map combine TemplatedFile.scan_until].
  destruct (cond x); [lia|].
  destruct r as [|y r'].
  - simpl. lia.
  - specialize (IH (S a) (Z.of_nat a) ltac:(discriminate)).
    cbn [List.length] in *. lia.
Qed.

Lemma relevant_slices_length (sliced_file : list sliced_elem)
    (template_slice : slice) :
  sliced_file <> [] ->
  (1 <= List.length (TemplatedFile.relevant_slices sliced_file template_slice)
     <= List.length sliced_file)%nat.
Proof.
  intros Hne. unfold TemplatedFile.relevant_slices.
  set (c1 := fun elem => _ >? _). set (c2 := fun elem => _ >=? _).
  pose proof (scan_until_range c1 sliced_file 0 0 Hne) as Hs.
  fold (py_enumerate sliced_file) in Hs.
  set (start_idx := TemplatedFile.scan_until c1 _ 0) in *.
  assert (Htail : py_getslice sliced_file (Some start_idx) None =
                  skipn (Z.to_nat start_idx) sliced_file).
  { unfold py_getslice, py_clamp.
    destruct (Z.ltb_spec start_idx 0); [lia|].
    rewrite Z.min_l by lia.
    apply firstn_all2. rewrite length_skipn. unfold len in *. lia. }
  rewrite Htail.
  set (tail := skipn (Z.to_nat start_idx) sliced_file).
  assert (Hlen : List.length tail =
                 (List.length sliced_file - Z.to_nat start_idx)%nat)
    by apply length_skipn.
  assert (Htne : tail <> []).
  { intros E. rewrite E in Hlen. simpl in Hlen. unfold len in *. lia. }
  pose proof (scan_until_range c2 tail 0 0 Htne) as Ht.
  fold (py_enumerate tail) in Ht.
  set (stop_idx := TemplatedFile.scan_until c2 _ 0) in *.
  unfold py_getslice, py_clamp, len in *.
  destruct (Z.ltb_spec start_idx 0); [lia|].
  destruct (Z.ltb_spec (stop_idx + (start_idx + 1)) 0); [lia|].
  clear Htail. rewrite (Z.min_l start_idx) by lia.
  fold tail. rewrite length_firstn, Hlen. lia.
Qed.

Lemma py_getitem_first {A : Type} (l : list A) :
  l <> [] -> exists e, py_getitem l 0 = Returns e /\ In e l.
Proof.
  intros Hne.
  destruct (py_getitem_in_range l 0) as (v & Hv & Hnth).
  - unfold len. destruct l; [congruence|simpl; lia].
  - exists v. split; [assumption|]. now apply nth_error_In in Hnth.
Qed.

Lemma py_getitem_last {A : Type} (l : list A) :
  l <> [] -> exists e, py_getitem l (-1) = Returns e /\ In e l.
Proof.
  intros Hne.
  assert (Hlen : 1 <= len l).
  { unfold len. destruct l; [congruence|simpl; lia]. }
  unfold py_getitem. change (-1 <? 0) with true. cbv iota.
  destruct (Z.leb_spec 0 (-1 + len l)); [|lia].
  destruct (Z.ltb_spec (-1 + len l) (len l)); [|lia]. cbn [andb].
  destruct (nth_error l (Z.to_nat (-1 + len l))) as [v|] eqn:E.
  - exists v. split; [reflexivity|]. now apply nth_error_In in E.
  - apply nth_error_None in E. unfold len in *. lia.
Qed.

Lemma fold_left_min_spec (r : list Z) (x : Z) :
  In (fold_left Z.min r x) (x :: r) /\
  forall y, In y (x :: r) -> fold_left Z.min r x <= y.
Proof.
  revert x. induction r as [|z r IH]; intros x; simpl.
  - split; [now left|]. intros y [<-|[]]. lia.
  - destruct (IH (Z.min x z)) as [Hin Hle]. split.
    + destruct Hin as [E|Hin]; [|now right; right].
      rewrite <- E. destruct (Z.min_spec x z) as [[_ ->]|[_ ->]]; auto.
    + intros y Hy.
      assert (Hm : fold_left Z.min r (Z.min x z) <= Z.min x z)
        by (apply Hle; now left).
      destruct Hy as [<-|[<-|Hy]]; try lia.
      apply Hle. now right.
Qed.

Lemma fold_left_max_spec (r : list Z) (x : Z) :
  In (fold_left Z.max r x) (x :: r) /\
  forall y, In y (x :: r) -> y <= fold_left Z.max r x.
Proof.
  revert x. induction r as [|z r IH]; intros x; simpl.
  - split; [now left|]. intros y [<-|[]]. lia.
  - destruct (IH (Z.max x z)) as [Hin Hle]. split.
    + destruct Hin as [E|Hin]; [|now right; right].
      rewrite <- E. destruct (Z.max_spec x z) as [[_ ->]|[_ ->]]; auto.
    + intros y Hy.
      assert (Hm : Z.max x z <= fold_left Z.max r (Z.max x z))
        by (apply Hle; now left).
      destruct Hy as [<-|[<-|Hy]]; try lia.
      apply Hle. now right.
Qed.

Lemma py_min_spec (f : sliced_elem -> Z) (l : list sliced_elem) :
  l <> [] -> exists lo, py_min (map f l) = Returns lo /\ least_over f l lo.
Proof.
  destruct l as [|x r]; [congruence|]. intros _. simpl.
  eexists. split; [reflexivity|].
  destruct (fold_left_min_spec (map f r) (f x)) as [Hin Hle].
  change (f x :: map f r) with (map f (x :: r)) in *. split.
  - apply in_map_iff in Hin. destruct Hin as (e & He & Hin). now exists e.
  - intros e He. apply Hle. now apply in_map.
Qed.

Lemma py_max_spec (f : sliced_elem -> Z) (l : list sliced_elem) :
  l <> [] -> exists hi, py_max (map f l) = Returns hi /\ greatest_over f l hi.
Proof.
  destruct l as [|x r]; [congruence|]. intros _. simpl.
  eexists. split; [reflexivity|].
  destruct (fold_left_max_spec (map f r) (f x)) as [Hin Hle].
  change (f x :: map f r) with (map f (x :: r)) in *. split.
  - apply in_map_iff in Hin. destruct Hin as (e & He & Hin). now exists e.
  - intros e He. apply Hle. now apply in_map.
Qed.

Lemma existsb_negb {A : Type} (f : A -> bool) (l : list A) :
  existsb (fun x => negb (f x)) l = negb (forallb f l).
Proof.
  induction l as [|x r IH]; simpl; [reflexivity|].
  rewrite IH. now destruct (f x).
Qed.

(** The translation with a non-empty [sliced_file], in terms of the
    window, the two boundaries and the widest span of the window. *)
Lemma translate_with_table (self : TemplatedFile.t)
    (sliced_file : list sliced_elem) (template_slice : slice) :
  TemplatedFile.sliced_file self = Some sliced_file ->
  sliced_file <> [] ->
  let slices := TemplatedFile.relevant_slices sliced_file template_slice in
  exists a b lo hi,
    TemplatedFile.start_boundary slices template_slice = Returns a /\
    TemplatedFile.stop_boundary slices template_slice = Returns b /\
    least_over (fun elem => start (elem1 elem)) slices lo /\
    greatest_over (fun elem => stop (elem1 elem)) slices hi /\
    TemplatedFile.template_slice_to_source_slice self template_slice =
    Returns (if a >? b then Slice lo hi else Slice a b,
             forallb is_literal_elem slices).
Proof.
  intros Hsf Hne slices.
  assert (Hsl : slices <> []).
  { pose proof (relevant_slices_length sliced_file template_slice Hne) as H.
    fold slices in H. intros E. rewrite E in H. simpl in H. lia. }
  destruct (py_getitem_first slices Hsl) as (first & Hfirst & Hfin).
  destruct (py_getitem_last slices Hsl) as (last & Hlast & Hlin).
  destruct (py_min_spec (fun elem => start (elem1 elem)) slices Hsl)
    as (lo & Hlo & Hleast).
  destruct (py_max_spec (fun elem => stop (elem1 elem)) slices Hsl)
    as (hi & Hhi & Hgreatest).
  unfold TemplatedFile.template_slice_to_source_slice,
    TemplatedFile.start_boundary, TemplatedFile.stop_boundary.
  rewrite Hsf. destruct sliced_file as [|e0 rest]; [congruence|].
  fold slices. rewrite Hfirst, Hlast. cbn [bind].
  rewrite (existsb_negb (fun elem => String.eqb (elem0 elem) "literal") slices).
  change (fun elem : sliced_elem => String.eqb (elem0 elem) "literal")
    with is_literal_elem.
  assert (Hflag : forall x, In x slices -> is_literal_elem x = false ->
                  forallb is_literal_elem slices = false).
  { intros x Hx Hk. destruct (forallb is_literal_elem slices) eqn:E;
      [|reflexivity].
    rewrite forallb_forall in E. rewrite (E x Hx) in Hk. discriminate. }
  fold (is_literal_elem first). fold (is_literal_elem last).
  destruct (is_literal_elem first) eqn:Ef, (is_literal_elem last) eqn:El.
  all: eexists _, _, lo, hi.
  all: repeat (split; [first [reflexivity | assumption]|]).
  all: cbv zeta; cbn [fst snd].
  all: try rewrite (Hflag first Hfin Ef); try rewrite (Hflag last Hlin El).
  all: match goal with |- context [?x >? ?y] => destruct (x >? y) end.
  all: try rewrite Hlo; try rewrite Hhi; cbn [bind negb].
  all: destruct (forallb is_literal_elem slices); reflexivity.
Qed.

Lemma flag_false_iff (slices : list sliced_elem) :
  forallb is_literal_elem slices = false <->
  exists elem, In elem slices /\ elem0 elem <> "literal"%string.
Proof.
  rewrite <- (negb_true_iff (forallb _ _)), <- existsb_negb, existsb_exists.
  split; intros (elem & Hin & Hk); exists elem; (split; [assumption|]).
  - apply negb_true_iff in Hk. now apply String.eqb_neq.
  - apply negb_true_iff. now apply String.eqb_neq.
Qed.

Lemma ref_str_init (source_str : string) (templated_str fname : option string)
    (sliced_file : option (list sliced_elem)) (source : bool) :
  let self := TemplatedFile.__init__ source_str templated_str fname sliced_file in
  (if source then TemplatedFile._source_newlines self
   else TemplatedFile._templated_newlines self) =
  newline_offsets (selected_text self source).
Proof.
  destruct source; simpl; apply iter_indices_of_newlines_spec.
Qed.

Lemma get_line_pos_of_char_pos_init (source_str : string)
    (templated_str fname : option string)
    (sliced_file : option (list sliced_elem)) (source : bool) (char_pos : Z) :
  let self := TemplatedFile.__init__ source_str templated_str fname sliced_file in
  TemplatedFile.get_line_pos_of_char_pos self char_pos source =
  Returns (line_pos_of (newline_offsets (selected_text self source)) char_pos).
Proof.
  intros self. rewrite get_line_pos_of_char_pos_run.
  unfold self. now rewrite ref_str_init.
Qed.

Lemma newlines_upto_at_newline (s : string) (n : Z) :
  newline_offset s n -> newlines_upto s n = newlines_before s n + 1.
Proof.
  intros [Hn Hnl]. unfold newlines_upto, newlines_before, len.
  replace (Z.to_nat (n + 1)) with (Z.to_nat n + 1)%nat by lia.
  rewrite seq_app, filter_app, length_app. simpl. rewrite Hnl. simpl. lia.
Qed.

Lemma relevant_slices_singleton (elem : sliced_elem) (template_slice : slice) :
  TemplatedFile.relevant_slices [elem] template_slice = [elem].
Proof.
  unfold TemplatedFile.relevant_slices.
  change (py_enumerate [elem]) with [(0, elem)].
  cbn [TemplatedFile.scan_until].
  destruct (stop (elem2 elem) >? start template_slice);
    change (py_getslice [elem] (Some 0) None) with [elem];
    change (py_enumerate [elem]) with [(0, elem)];
    cbn [TemplatedFile.scan_until];
    destruct (stop (elem2 elem) >=? stop template_slice); reflexivity.
Qed.

Lemma translate_without_table (self : TemplatedFile.t) (template_slice : slice) :
  TemplatedFile.sliced_file self = None \/
  TemplatedFile.sliced_file self = Some [] ->
  TemplatedFile.template_slice_to_source_slice self template_slice =
  Returns (template_slice, false).
Proof.
  unfold TemplatedFile.template_slice_to_source_slice.
  intros [-> | ->]; reflexivity.
Qed.

(** ** Translation of templated slices *)

(** C6: when [sliced_file] is absent ([None]) or empty, the templated
    slice is returned unchanged, paired with [False], for every slice. *)
Theorem C6_no_table_identity (self : TemplatedFile.t) (template_slice : slice) :
  TemplatedFile.sliced_file self = None \/
  TemplatedFile.sliced_file self = Some [] ->
  TemplatedFile.template_slice_to_source_slice self template_slice =
  Returns (template_slice, false).
Proof.
  exact (translate_without_table self template_slice).
Qed.

Lemma C6_no_table_identity_witness :
  TemplatedFile.template_slice_to_source_slice
    (TemplatedFile.__init__ ref_source None None None) (Slice 3 9) =
  Returns (Slice 3 9, false) /\
  TemplatedFile.template_slice_to_source_slice
    (TemplatedFile.__init__ ref_source None None (Some [])) (Slice 9 3) =
  Returns (Slice 9 3, false).
Proof.
  split.
  - apply C6_no_table_identity. left. reflexivity.
  - apply C6_no_table_identity. right. reflexivity.
Defined.

(** C7: with a single literal element whose source and templated slices
    are both [0, N), every sub-slice [a, b) of [0, N) is translated to
    itself, with the flag [True]. *)
Theorem C7_single_literal_round_trip (source_str : string)
    (templated_str fname : option string) (N a b : Z) :
  0 <= a -> a <= b -> b <= N ->
  TemplatedFile.template_slice_to_source_slice
    (TemplatedFile.__init__ source_str templated_str fname
       (Some [("literal"%string, Slice 0 N, Slice 0 N)]))
    (Slice a b) =
  Returns (Slice a b, true).
Proof.
  intros Ha Hab HbN.
  unfold TemplatedFile.template_slice_to_source_slice.
  cbn [TemplatedFile.sliced_file TemplatedFile.__init__].
  rewrite relevant_slices_singleton.
  change (py_getitem [("literal"%string, Slice 0 N, Slice 0 N)] 0)
    with (Returns ("literal"%string, Slice 0 N, Slice 0 N)).
  change (py_getitem [("literal"%string, Slice 0 N, Slice 0 N)] (-1))
    with (Returns ("literal"%string, Slice 0 N, Slice 0 N)).
  cbn [bind elem0 elem1 elem2 fst snd start stop existsb negb orb].
  change (String.eqb "literal" "literal") with true. cbv iota beta zeta.
  cbn [negb].
  destruct (Z.gtb_spec (0 + (a - 0)) (N - (N - b))); [lia|].
  do 2 f_equal. f_equal; lia.
Qed.

Lemma C7_single_literal_round_trip_witness :
  TemplatedFile.template_slice_to_source_slice
    (TemplatedFile.__init__ ref_source None None
       (Some [("literal"%string, Slice 0 (str_len ref_source),
               Slice 0 (str_len ref_source))]))
    (Slice 7 13) =
  Returns (Slice 7 13, true).
Proof.
  apply (C7_single_literal_round_trip ref_source None None
           (str_len ref_source) 7 13); vm_compute; discriminate.
Defined.

(** C4: on the two-element table of the reference example (a literal
    element, source [0,14) and templated [0,14), followed by an element
    of any other kind, source [14,26) and templated [14,21)), the
    templated slice [0,14) maps to source [0,14) with flag [True] and
    [14,21) maps to [14,26) with flag [False]; and whenever the computed
    source start does not exceed the computed source stop, the returned
    flag is [False] exactly when some element of the window is not
    literal. *)
Theorem C4_window_exactness :
  (forall (self : TemplatedFile.t) (kind : string),
     kind <> "literal"%string ->
     TemplatedFile.sliced_file self =
       Some [ ("literal"%string, Slice 0 14, Slice 0 14);
              (kind, Slice 14 26, Slice 14 21) ] ->
     TemplatedFile.template_slice_to_source_slice self (Slice 0 14) =
       Returns (Slice 0 14, true) /\
     TemplatedFile.template_slice_to_source_slice self (Slice 14 21) =
       Returns (Slice 14 26, false)) /\
  (forall (self : TemplatedFile.t) (sliced_file : list sliced_elem)
          (template_slice : slice) (a b : Z),
     TemplatedFile.sliced_file self = Some sliced_file ->
     sliced_file <> [] ->
     let slices := TemplatedFile.relevant_slices sliced_file template_slice in
     TemplatedFile.start_boundary slices template_slice = Returns a ->
     TemplatedFile.stop_boundary slices template_slice = Returns b ->
     a <= b ->
     exists (source_slice : slice) (is_literal : bool),
       TemplatedFile.template_slice_to_source_slice self template_slice =
         Returns (source_slice, is_literal) /\
       (is_literal = false <->
        exists elem, In elem slices /\ elem0 elem <> "literal"%string)).
Proof.
  split.
  - intros self kind Hkind Hsf.
    apply String.eqb_neq in Hkind.
    unfold TemplatedFile.template_slice_to_source_slice. rewrite Hsf.
    split.
    + change (TemplatedFile.relevant_slices _ (Slice 0 14))
        with [("literal"%string, Slice 0 14, Slice 0 14)].
      reflexivity.
    + change (TemplatedFile.relevant_slices _ (Slice 14 21))
        with [(kind, Slice 14 26, Slice 14 21)].
      change (py_getitem [(kind, Slice 14 26, Slice 14 21)] 0)
        with (Returns (kind, Slice 14 26, Slice 14 21)).
      change (py_getitem [(kind, Slice 14 26, Slice 14 21)] (-1))
        with (Returns (kind, Slice 14 26, Slice 14 21)).
      cbn [bind elem0 elem1 elem2 fst snd start stop existsb].
      rewrite Hkind. reflexivity.
  - intros self sliced_file template_slice a b Hsf Hne slices Ha Hb Hab.
    destruct (translate_with_table self sliced_file template_slice Hsf Hne)
      as (a' & b' & lo & hi & Ha' & Hb' & _ & _ & Hres).
    fold slices in Ha', Hb', Hres.
    assert (a' = a) by congruence. assert (b' = b) by congruence. subst a' b'.
    destruct (Z.gtb_spec a b); [lia|].
    exists (Slice a b), (forallb is_literal_elem slices).
    split; [assumption|]. apply flag_false_iff.
Qed.

Lemma C4_window_exactness_witness :
  (TemplatedFile.template_slice_to_source_slice ref_file (Slice 0 14) =
     Returns (Slice 0 14, true) /\
   TemplatedFile.template_slice_to_source_slice ref_file (Slice 14 21) =
     Returns (Slice 14 26, false)) /\
  exists (source_slice : slice) (is_literal : bool),
    TemplatedFile.template_slice_to_source_slice ref_file (Slice 3 18) =
      Returns (source_slice, is_literal) /\
    (is_literal = false <->
     exists elem,
       In elem (TemplatedFile.relevant_slices ref_sliced_file (Slice 3 18)) /\
       elem0 elem <> "literal"%string).
Proof.
  split.
  - apply (proj1 C4_window_exactness ref_file "templated"%string).
    + discriminate.
    + reflexivity.
  - apply (proj2 C4_window_exactness ref_file ref_sliced_file (Slice 3 18) 3 26).
    + reflexivity.
    + discriminate.
    + reflexivity.
    + reflexivity.
    + lia.
Defined.

(** C1 (as the code has it): with a non-empty table, when the computed
    source start exceeds the computed source stop, the returned source
    slice runs from the least source start to the greatest source stop
    over the window, and the returned flag is the one the kinds give:
    [False] exactly when some element of the window is not literal. *)
Theorem C1_wrong_way_around_widest_span (self : TemplatedFile.t)
    (sliced_file : list sliced_elem) (template_slice : slice) (a b : Z) :
  TemplatedFile.sliced_file self = Some sliced_file ->
  sliced_file <> [] ->
  let slices := TemplatedFile.relevant_slices sliced_file template_slice in
  TemplatedFile.start_boundary slices template_slice = Returns a ->
  TemplatedFile.stop_boundary slices template_slice = Returns b ->
  a > b ->
  exists (lo hi : Z) (is_literal : bool),
    least_over (fun elem => start (elem1 elem)) slices lo /\
    greatest_over (fun elem => stop (elem1 elem)) slices hi /\
    TemplatedFile.template_slice_to_source_slice self template_slice =
      Returns (Slice lo hi, is_literal) /\
    (is_literal = false <->
     exists elem, In elem slices /\ elem0 elem <> "literal"%string).
Proof.
  intros Hsf Hne slices Ha Hb Hab.
  destruct (translate_with_table self sliced_file template_slice Hsf Hne)
    as (a' & b' & lo & hi & Ha' & Hb' & Hlo & Hhi & Hres).
  fold slices in Ha', Hb', Hlo, Hhi, Hres.
  assert (a' = a) by congruence. assert (b' = b) by congruence. subst a' b'.
  destruct (Z.gtb_spec a b); [|lia].
  exists lo, hi, (forallb is_literal_elem slices).
  repeat split; try assumption; try apply Hlo; try apply Hhi.
  all: apply flag_false_iff.
Qed.

Lemma C1_wrong_way_around_widest_span_witness :
  exists (lo hi : Z) (is_literal : bool),
    least_over (fun elem => start (elem1 elem))
      (TemplatedFile.relevant_slices swapped_sliced_file (Slice 0 10)) lo /\
    greatest_over (fun elem => stop (elem1 elem))
      (TemplatedFile.relevant_slices swapped_sliced_file (Slice 0 10)) hi /\
    TemplatedFile.template_slice_to_source_slice swapped_file (Slice 0 10) =
      Returns (Slice lo hi, is_literal) /\
    (is_literal = false <->
     exists elem,
       In elem (TemplatedFile.relevant_slices swapped_sliced_file (Slice 0 10)) /\
       elem0 elem <> "literal"%string).
Proof.
  apply (C1_wrong_way_around_widest_span swapped_file swapped_sliced_file
           (Slice 0 10) 20 5).
  - reflexivity.
  - discriminate.
  - reflexivity.
  - reflexivity.
  - lia.
Defined.

(** C1, the claim as stated fails: two literal pieces emitted in the
    opposite order of the source, translated together, give the widest
    span [0,25) with the flag [True], not [False]. *)
Lemma C1_flag_not_forced_false :
  let slices := TemplatedFile.relevant_slices swapped_sliced_file (Slice 0 10) in
  TemplatedFile.start_boundary slices (Slice 0 10) = Returns 20 /\
  TemplatedFile.stop_boundary slices (Slice 0 10) = Returns 5 /\
  20 > 5 /\
  TemplatedFile.template_slice_to_source_slice swapped_file (Slice 0 10) =
    Returns (Slice 0 25, true) /\
  ~ (exists source_slice,
       TemplatedFile.template_slice_to_source_slice swapped_file (Slice 0 10) =
       Returns (source_slice, false)).
Proof.
  cbv zeta. repeat split.
  intros (source_slice & H). vm_compute in H. discriminate.
Qed.

(** C3 (as the code has it): the translation validates nothing and
    never raises; for every file and every slice, whatever its bounds,
    it returns a source slice and a flag. *)
Theorem C3_translation_never_raises (self : TemplatedFile.t)
    (template_slice : slice) :
  exists (source_slice : slice) (is_literal : bool),
    TemplatedFile.template_slice_to_source_slice self template_slice =
    Returns (source_slice, is_literal).
Proof.
  destruct (TemplatedFile.sliced_file self) as [[|e0 rest]|] eqn:Hsf.
  - exists template_slice, false. apply translate_without_table. now right.
  - destruct (translate_with_table self (e0 :: rest) template_slice Hsf)
      as (a & b & lo & hi & _ & _ & _ & _ & Hres); [discriminate|].
    eexists _, _. exact Hres.
  - exists template_slice, false. apply translate_without_table. now left.
Qed.

(** C3, the claim as stated fails: on the reference example a slice
    with start after stop, a slice with a negative bound and a slice
    reaching beyond the templated text (21 characters) each return a
    result instead of raising. *)
Lemma C3_invalid_slices_are_translated :
  str_len (TemplatedFile.templated_str ref_file) = 21 /\
  TemplatedFile.template_slice_to_source_slice ref_file (Slice 21 14) =
    Returns (Slice 14 26, false) /\
  TemplatedFile.template_slice_to_source_slice ref_file (Slice (-5) 3) =
    Returns (Slice (-5) 3, true) /\
  TemplatedFile.template_slice_to_source_slice ref_file (Slice 0 100) =
    Returns (Slice 0 26, false) /\
  forall (template_slice : slice) (e : exn),
    TemplatedFile.template_slice_to_source_slice ref_file template_slice <>
    Raises e.
Proof.
  repeat split.
  intros template_slice e H.
  destruct (TemplatedFile.sliced_file ref_file) as [[|e0 rest]|] eqn:Hsf;
    try discriminate.
  destruct (translate_with_table ref_file (e0 :: rest) template_slice Hsf)
    as (a & b & lo & hi & _ & _ & _ & _ & Hres); [discriminate|].
  congruence.
Qed.

(** ** Line and column resolution *)

(** C5 (as the code has it): for a file built by the constructor and
    any offset, when [n] is the greatest line-break offset strictly
    below the offset the result is line = (number of line-break offsets
    strictly below [n]) + 2, which is (number of line-break offsets up
    to and including [n]) + 1, and column = offset - [n]; when no
    line-break offset lies below the offset the result is line 1 and
    column = offset + 1. *)
Theorem C5_line_and_column (source_str : string)
    (templated_str fname : option string)
    (sliced_file : option (list sliced_elem)) (source : bool) (char_pos : Z) :
  let self := TemplatedFile.__init__ source_str templated_str fname sliced_file in
  let text := selected_text self source in
  (forall n, greatest_newline_below text char_pos n ->
     TemplatedFile.get_line_pos_of_char_pos self char_pos source =
       Returns (newlines_before text n + 2, char_pos - n) /\
     newlines_before text n + 2 = newlines_upto text n + 1) /\
  ((forall n, newline_offset text n -> char_pos <= n) ->
     TemplatedFile.get_line_pos_of_char_pos self char_pos source =
       Returns (1, char_pos + 1)).
Proof.
  intros self text. unfold self.
  rewrite get_line_pos_of_char_pos_init. fold self. fold text. split.
  - intros n Hn. split.
    + now rewrite (line_pos_of_greatest text char_pos n Hn).
    + destruct Hn as [Hn _]. rewrite (newlines_upto_at_newline text n Hn). lia.
  - intros Hnone. now rewrite (line_pos_of_first_line text char_pos Hnone).
Qed.

Lemma greatest_newline_below_three_lines_3 :
  greatest_newline_below three_lines 3 1.
Proof.
  repeat split; try lia.
  intros m [Hm Hnl] Hlt.
  destruct (Z_le_gt_dec m 1) as [|Hgt]; [assumption|].
  assert (m = 2) by lia. subst m. vm_compute in Hnl. discriminate.
Qed.

Lemma C5_line_and_column_witness :
  (TemplatedFile.get_line_pos_of_char_pos
     (TemplatedFile.__init__ three_lines None None None) 3 true =
   Returns (newlines_before three_lines 1 + 2, 3 - 1) /\
   newlines_before three_lines 1 + 2 = newlines_upto three_lines 1 + 1) /\
  TemplatedFile.get_line_pos_of_char_pos
    (TemplatedFile.__init__ three_lines None None None) 1 true =
  Returns (1, 1 + 1).
Proof.
  split.
  - apply (proj1 (C5_line_and_column three_lines None None None true 3) 1).
    exact greatest_newline_below_three_lines_3.
  - apply (proj2 (C5_line_and_column three_lines None None None true 1)).
    intros n [Hn Hnl].
    destruct (Z_le_gt_dec 1 n) as [|Hgt]; [assumption|].
    assert (n = 0) by lia. subst n. vm_compute in Hnl. discriminate.
Defined.

(** C5, the claim as stated fails: in the text [a\nbc\nd] the offset 3
    (the character [c]) has the line break at offset 1 as the greatest
    one below it and one line-break offset is at most 1, so the stated
    formula gives line 3, while the code returns line 2, column 2. *)
Lemma C5_stated_line_is_one_too_many :
  greatest_newline_below three_lines 3 1 /\
  newlines_upto three_lines 1 = 1 /\
  TemplatedFile.get_line_pos_of_char_pos
    (TemplatedFile.__init__ three_lines None None None) 3 true =
  Returns (2, 2) /\
  TemplatedFile.get_line_pos_of_char_pos
    (TemplatedFile.__init__ three_lines None None None) 3 true <>
  Returns (newlines_upto three_lines 1 + 2, 3 - 1).
Proof.
  split; [exact greatest_newline_below_three_lines_3|].
  repeat split. vm_compute. discriminate.
Qed.

(** C8: for a file built by the constructor and valid offsets
    [o1 < o2] into the same text, both queries return, the line of [o1]
    is at most the line of [o2], and on equal lines the column of [o1]
    is strictly less than the column of [o2]. *)
Theorem C8_positions_monotone (source_str : string)
    (templated_str fname : option string)
    (sliced_file : option (list sliced_elem)) (source : bool) (o1 o2 : Z) :
  let self := TemplatedFile.__init__ source_str templated_str fname sliced_file in
  0 <= o1 -> o1 < o2 -> o2 <= str_len (selected_text self source) ->
  exists line1 col1 line2 col2,
    TemplatedFile.get_line_pos_of_char_pos self o1 source =
      Returns (line1, col1) /\
    TemplatedFile.get_line_pos_of_char_pos self o2 source =
      Returns (line2, col2) /\
    line1 <= line2 /\
    (line1 = line2 -> col1 < col2).
Proof.
  intros self _ Ho _.
  rewrite !get_line_pos_of_char_pos_run.
  set (ref_str := if source then _ else _).
  destruct (line_pos_of_mono ref_str o1 o2 Ho) as [Hline Hcol].
  destruct (line_pos_of ref_str o1) as [line1 col1].
  destruct (line_pos_of ref_str o2) as [line2 col2].
  now exists line1, col1, line2, col2.
Qed.

Lemma C8_positions_monotone_witness :
  exists line1 col1 line2 col2,
    TemplatedFile.get_line_pos_of_char_pos
      (TemplatedFile.__init__ three_lines None None None) 1 true =
      Returns (line1, col1) /\
    TemplatedFile.get_line_pos_of_char_pos
      (TemplatedFile.__init__ three_lines None None None) 6 true =
      Returns (line2, col2) /\
    line1 <= line2 /\
    (line1 = line2 -> col1 < col2).
Proof.
  apply (C8_positions_monotone three_lines None None None true 1 6).
  - lia.
  - lia.
  - vm_compute. discriminate.
Defined.

Lemma is_newline_at_beyond (s : string) (q : nat) :
  (String.length s <= q)%nat -> is_newline_at s q = false.
Proof.
  intros Hq. destruct (is_newline_at s q) eqn:E; [|reflexivity].
  apply is_newline_at_lt in E. lia.
Qed.

Lemma leading_below_count (s : string) (cp : Z) :
  Z.of_nat (leading_below (newline_offsets s) cp) = newlines_before s cp.
Proof.
  unfold newlines_before, len, newline_offsets.
  set (f := is_newline_at s). set (N := String.length s).
  set (k := Nat.min (Z.to_nat cp) N).
  assert (Hsplit : seq 0 N = seq 0 k ++ seq k (N - k)).
  { replace N with (k + (N - k))%nat at 1 by lia. apply seq_app. }
  assert (Hcount : filter f (seq 0 (Z.to_nat cp)) = filter f (seq 0 k)).
  { replace (Z.to_nat cp) with (k + (Z.to_nat cp - k))%nat by lia.
    rewrite seq_app, filter_app. simpl.
    rewrite (filter_seq_none f k); [apply app_nil_r|].
    intros q Hq. apply is_newline_at_beyond. fold N. lia. }
  rewrite Hsplit, Hcount, filter_app, map_app, leading_below_app.
  - rewrite leading_below_stop; [rewrite length_map; lia|].
    apply Forall_forall. intros x Hx. apply in_filtered_range in Hx. lia.
  - apply Forall_forall. intros x Hx. apply in_filtered_range in Hx. lia.
Qed.

Lemma newlines_before_beyond (s : string) (cp : Z) :
  str_len s <= cp -> newlines_before s cp = newlines_before s (str_len s).
Proof.
  intros Hcp. rewrite <- !leading_below_count. f_equal. symmetry.
  apply leading_below_gap; [assumption|].
  intros x Hx Hr. apply in_filtered_range in Hx. unfold str_len in Hr.
  simpl in Hx. lia.
Qed.

(** Beyond the end of the text the last line goes on: the line is the
    number of line breaks of the text plus 1, and the column is counted
    from the last line break. *)
Lemma line_pos_of_beyond (s : string) (cp n : Z) :
  str_len s <= cp ->
  greatest_newline_below s (str_len s) n ->
  line_pos_of (newline_offsets s) cp =
  (newlines_before s (str_len s) + 1, cp - n).
Proof.
  intros Hcp (Hn & Hlt & Hmax).
  assert (Hg : greatest_newline_below s cp n).
  { repeat split; try apply Hn; try lia.
    intros m Hm _. apply Hmax; [assumption|].
    destruct Hm as [Hm0 Hm]. apply is_newline_at_lt in Hm.
    unfold str_len. lia. }
  pose proof (line_pos_of_line (newline_offsets s) cp) as Hl.
  rewrite leading_below_count, (newlines_before_beyond s cp Hcp) in Hl.
  rewrite (line_pos_of_greatest s cp n Hg) in *. simpl fst in Hl.
  f_equal. exact Hl.
Qed.

Lemma greatest_newline_below_three_lines_end :
  greatest_newline_below three_lines (str_len three_lines) 4.
Proof.
  change (str_len three_lines) with 6.
  repeat split; try lia.
  intros m [Hm Hnl] Hlt.
  destruct (Z_le_gt_dec m 4) as [|Hgt]; [assumption|].
  assert (m = 5) by lia. subst m. vm_compute in Hnl. discriminate.
Qed.

Lemma line_pos_of_negative (s : string) (cp : Z) :
  cp < 0 -> line_pos_of (newline_offsets s) cp = (1, cp + 1).
Proof.
  intros Hcp. apply line_pos_of_first_line. intros n [Hn _]. lia.
Qed.

(** The position at the end of a non-empty text, from the position of
    its last character. *)
Lemma line_pos_of_end (s : string) (line col : Z) :
  s <> EmptyString ->
  line_pos_of (newline_offsets s) (str_len s - 1) = (line, col) ->
  line_pos_of (newline_offsets s) (str_len s) =
  if is_newline_at s (Nat.pred (String.length s))
  then (line + 1, 1) else (line, col + 1).
Proof.
  intros Hne Hlast.
  assert (Hlen : (1 <= String.length s)%nat).
  { destruct s; [congruence|simpl; lia]. }
  set (m := Nat.pred (String.length s)).
  assert (Hm : str_len s - 1 = Z.of_nat m) by (unfold str_len, m; lia).
  destruct (is_newline_at s m) eqn:Hnl.
  - assert (Hg : greatest_newline_below s (str_len s) (str_len s - 1)).
    { rewrite Hm. unfold greatest_newline_below, newline_offset.
      rewrite Nat2Z.id. unfold str_len in *. repeat split; try lia.
      assumption. }
    rewrite (line_pos_of_greatest _ _ _ Hg).
    pose proof (line_pos_of_line (newline_offsets s) (str_len s - 1)) as Hl.
    rewrite Hlast in Hl. simpl fst in Hl.
    rewrite Hm, (leading_below_at_newline s m Hnl) in Hl.
    unfold newlines_before, len. rewrite Hm, Nat2Z.id.
    f_equal; lia.
  - assert (Hgap : leading_below (newline_offsets s) (str_len s - 1) =
                   leading_below (newline_offsets s) (str_len s)).
    { apply leading_below_gap; [lia|].
      intros x Hx Hr. apply in_newline_offsets in Hx. destruct Hx as [_ Hx].
      replace (Z.to_nat x) with m in Hx by lia. congruence. }
    unfold line_pos_of in *. rewrite <- Hgap.
    destruct (leading_below (newline_offsets s) (str_len s - 1));
      injection Hlast as <- <-; f_equal; lia.
Qed.

(** C2 (as the code has it): the query validates nothing and never
    raises.  For a file built by the constructor it returns a line and
    a column for every integer offset; a negative offset gives line 1
    and column offset + 1; the offset equal to the length of the text
    gives the position immediately following the last character: the
    first column of the next line when the last character is a line
    break, the next column of the same line otherwise, and line 1,
    column 1 on an empty text; an offset at or beyond the length of the
    text is resolved against the last line: the line is the number of
    line breaks of the text plus 1 and the column is the offset minus
    the offset of the last line break, or offset + 1 when the text has
    no line break. *)
Theorem C2_line_pos_never_raises (source_str : string)
    (templated_str fname : option string)
    (sliced_file : option (list sliced_elem)) (source : bool) :
  let self := TemplatedFile.__init__ source_str templated_str fname sliced_file in
  let text := selected_text self source in
  (forall char_pos, exists line col,
     TemplatedFile.get_line_pos_of_char_pos self char_pos source =
     Returns (line, col)) /\
  (forall char_pos, char_pos < 0 ->
     TemplatedFile.get_line_pos_of_char_pos self char_pos source =
     Returns (1, char_pos + 1)) /\
  (text = EmptyString ->
     TemplatedFile.get_line_pos_of_char_pos self (str_len text) source =
     Returns (1, 1)) /\
  (text <> EmptyString ->
     exists line col,
       TemplatedFile.get_line_pos_of_char_pos self (str_len text - 1) source =
         Returns (line, col) /\
       TemplatedFile.get_line_pos_of_char_pos self (str_len text) source =
         Returns (if is_newline_at text (Nat.pred (String.length text))
                  then (line + 1, 1) else (line, col + 1))) /\
  (forall char_pos, str_len text <= char_pos ->
     (forall n, greatest_newline_below text (str_len text) n ->
        TemplatedFile.get_line_pos_of_char_pos self char_pos source =
        Returns (newlines_before text (str_len text) + 1, char_pos - n)) /\
     ((forall n, ~ newline_offset text n) ->
        TemplatedFile.get_line_pos_of_char_pos self char_pos source =
        Returns (1, char_pos + 1))).
Proof.
  intros self text. split; [|split; [|split; [|split]]].
  - intros char_pos. unfold self. rewrite get_line_pos_of_char_pos_init.
    destruct (line_pos_of _ char_pos) as [line col]. now exists line, col.
  - intros char_pos Hneg. unfold self. rewrite get_line_pos_of_char_pos_init.
    now rewrite line_pos_of_negative.
  - intros Hempty. unfold self. rewrite get_line_pos_of_char_pos_init.
    fold self. fold text. rewrite Hempty. reflexivity.
  - intros Hne. unfold self. rewrite !get_line_pos_of_char_pos_init.
    fold self. fold text.
    destruct (line_pos_of (newline_offsets text) (str_len text - 1))
      as [line col] eqn:Hlast.
    exists line, col. split; [reflexivity|].
    now rewrite (line_pos_of_end text line col Hne Hlast).
  - intros char_pos Hbeyond. unfold self.
    rewrite get_line_pos_of_char_pos_init. fold self. fold text. split.
    + intros n Hn. now rewrite (line_pos_of_beyond text char_pos n Hbeyond Hn).
    + intros Hnone. rewrite line_pos_of_first_line; [reflexivity|].
      intros n Hn. now apply Hnone in Hn.
Qed.

Lemma C2_line_pos_never_raises_witness :
  TemplatedFile.get_line_pos_of_char_pos
    (TemplatedFile.__init__ three_lines None None None) (-4) true =
  Returns (1, -4 + 1) /\
  (exists line col,
     TemplatedFile.get_line_pos_of_char_pos
       (TemplatedFile.__init__ three_lines None None None)
       (str_len three_lines - 1) true = Returns (line, col) /\
     TemplatedFile.get_line_pos_of_char_pos
       (TemplatedFile.__init__ three_lines None None None)
       (str_len three_lines) true =
     Returns (if is_newline_at three_lines (Nat.pred (String.length three_lines))
              then (line + 1, 1) else (line, col + 1))) /\
  TemplatedFile.get_line_pos_of_char_pos
    (TemplatedFile.__init__ three_lines None None None) 7 true =
  Returns (newlines_before three_lines (str_len three_lines) + 1, 7 - 4).
Proof.
  split; [|split].
  - apply (proj1 (proj2 (C2_line_pos_never_raises three_lines None None None true))).
    lia.
  - apply (proj1 (proj2 (proj2 (proj2
             (C2_line_pos_never_raises three_lines None None None true))))).
    discriminate.
  - apply (proj1 (proj2 (proj2 (proj2 (proj2
             (C2_line_pos_never_raises three_lines None None None true)))) 7
             ltac:(vm_compute; discriminate))).
    exact greatest_newline_below_three_lines_end.
Defined.

(** C2, the claim as stated fails: on the six-character text [a\nbc\nd]
    the offsets -1 and 7 (one past the end-of-text offset) each get a
    line and a column, and no offset makes the query raise. *)
Lemma C2_invalid_offsets_are_resolved :
  str_len three_lines = 6 /\
  TemplatedFile.get_line_pos_of_char_pos
    (TemplatedFile.__init__ three_lines None None None) (-1) true =
  Returns (1, 0) /\
  TemplatedFile.get_line_pos_of_char_pos
    (TemplatedFile.__init__ three_lines None None None) 7 true =
  Returns (3, 3) /\
  forall (char_pos : Z) (e : exn),
    TemplatedFile.get_line_pos_of_char_pos
      (TemplatedFile.__init__ three_lines None None None) char_pos true <>
    Raises e.
Proof.
  repeat split.
  intros char_pos e. rewrite get_line_pos_of_char_pos_run. discriminate.
Qed.

(** ** Construction and truthiness *)

(** C10: an explicitly supplied empty templated string builds the same
    object as no templated string: the templated text is the source
    text, the truthiness of the object is whether the source text is
    non-empty, and for no value of the argument is the templated text
    empty while the source text is not. *)
Theorem C10_empty_templated_is_absent (source_str : string)
    (fname : option string) (sliced_file : option (list sliced_elem)) :
  TemplatedFile.__init__ source_str (Some EmptyString) fname sliced_file =
    TemplatedFile.__init__ source_str None fname sliced_file /\
  TemplatedFile.templated_str
    (TemplatedFile.__init__ source_str (Some EmptyString) fname sliced_file) =
    source_str /\
  TemplatedFile.__bool__
    (TemplatedFile.__init__ source_str (Some EmptyString) fname sliced_file) =
    TemplatedFile.str_bool source_str /\
  (forall templated_str : option string,
     source_str <> EmptyString ->
     TemplatedFile.templated_str
       (TemplatedFile.__init__ source_str templated_str fname sliced_file) <>
     EmptyString).
Proof.
  repeat split.
  intros templated_str Hne. simpl.
  destruct templated_str as [[|c s]|]; simpl; congruence.
Qed.

Lemma C10_empty_templated_is_absent_witness :
  TemplatedFile.templated_str
    (TemplatedFile.__init__ ref_source (Some EmptyString) None None) <>
  EmptyString.
Proof.
  apply (proj2 (proj2 (proj2
           (C10_empty_templated_is_absent ref_source None None)))).
  discriminate.
Defined.

(** ** Templater equality *)

Lemma isinstance_subclass (obj : templater) (cls : templater_class) :
  isinstance obj cls = true <-> subclass (__class__ obj) cls.
Proof.
  unfold isinstance. split.
  - destruct (__class__ obj), cls; simpl; try discriminate; intros _.
    + apply subclass_refl.
    + apply (subclass_base _ RawTemplater_class); [now left|].
      apply subclass_refl.
    + apply subclass_refl.
  - intros H. destruct (__class__ obj), cls; try reflexivity.
    exfalso. inversion H as [|c b d Hin _]; subst. destruct Hin.
Qed.

(** The method on its own, called directly: it answers [True] exactly
    when the class of [other] is the class of [self] or a subclass of
    it, so a direct call on an instance of the base class with an
    instance of the subclass answers [True] and the call the other way
    round answers [False]. *)
Lemma eq_method_is_isinstance :
  (forall self other : templater,
     RawTemplater.__eq__ self other = true <->
     subclass (__class__ other) (__class__ self)) /\
  (forall self : templater, RawTemplater.__eq__ self self = true) /\
  (forall base sub : templater,
     __class__ base = RawTemplater_class ->
     __class__ sub = DataformTemplater_class ->
     RawTemplater.__eq__ base sub = true /\
     RawTemplater.__eq__ sub base = false).
Proof.
  split; [|split].
  - intros self other. apply isinstance_subclass.
  - intros self. unfold RawTemplater.__eq__, isinstance.
    now destruct (__class__ self).
  - intros base sub Hbase Hsub. unfold RawTemplater.__eq__, isinstance.
    rewrite Hbase, Hsub. split; reflexivity.
Qed.

(** C9: templater equality, as [==] evaluates it with
    [RawTemplater.__eq__], holds between two templaters if and only if
    they are of the same concrete class; the relation is symmetric, and
    an instance of the subclass and an instance of its base class are
    not equal, in either order. *)
Theorem C9_equality_is_same_class :
  (forall v w : templater,
     py_eq v w = true <-> __class__ v = __class__ w) /\
  (forall v w : templater, py_eq v w = py_eq w v) /\
  (forall base sub : templater,
     __class__ base = RawTemplater_class ->
     __class__ sub = DataformTemplater_class ->
     py_eq base sub = false /\ py_eq sub base = false).
Proof.
  split; [|split].
  - intros v w. unfold py_eq, RawTemplater.__eq__, isinstance.
    destruct (__class__ v), (__class__ w); simpl; split;
      congruence || discriminate.
  - intros v w. unfold py_eq, RawTemplater.__eq__, isinstance.
    now destruct (__class__ v), (__class__ w).
  - intros base sub Hbase Hsub. unfold py_eq, RawTemplater.__eq__, isinstance.
    rewrite Hbase, Hsub. split; reflexivity.
Qed.

Lemma C9_equality_is_same_class_witness :
  py_eq raw_instance dataform_instance = false /\
  py_eq dataform_instance raw_instance = false.
Proof.
  apply (proj2 (proj2 C9_equality_is_same_class) raw_instance
           dataform_instance); reflexivity.
Defined.

(** The [==] operator, with the interpreter's reflected-operand rule,
    does compare the concrete classes. *)
Remark py_eq_same_class (v w : templater) :
  py_eq v w = true <-> __class__ v = __class__ w.
Proof.
  unfold py_eq, RawTemplater.__eq__, isinstance.
  destruct (__class__ v), (__class__ w); simpl; split;
    congruence || discriminate.
Qed.

(** ** Further properties: the newline index *)

Lemma filtered_range_sorted (s : string) (a n : nat) :
  StronglySorted Z.lt (map Z.of_nat (filter (is_newline_at s) (seq a n))).
Proof.
  revert a. induction n as [|n IH]; intros a; simpl; [constructor|].
  destruct (is_newline_at s a); [|apply IH].
  simpl. constructor; [apply IH|].
  apply Forall_forall. intros x Hx. apply in_filtered_range in Hx. lia.
Qed.

Lemma newline_offset_in (s : string) (x : Z) :
  newline_offset s x -> In x (newline_offsets s).
Proof.
  intros [Hx Hnl]. unfold newline_offsets.
  apply in_map_iff. exists (Z.to_nat x). split; [lia|].
  apply filter_In. split; [|assumption].
  apply in_seq. pose proof (is_newline_at_lt _ _ Hnl). lia.
Qed.

Lemma is_newline_at_get (s : string) (i : nat) :
  is_newline_at s i = true <-> String.get i s = Some "010"%char.
Proof.
  unfold is_newline_at. destruct (String.get i s) as [c|]; split;
    try discriminate.
  - intros H. apply Ascii.eqb_eq in H. now subst.
  - intros H. injection H as ->. apply Ascii.eqb_refl.
Qed.

(** X1: the generator yields exactly the offsets of the line-break
    characters of the string, each within the string, in strictly
    ascending order. *)
Theorem iter_indices_of_newlines_exact (raw_str : string) :
  (forall n : Z,
     In n (iter_indices_of_newlines raw_str) <->
     0 <= n < str_len raw_str /\
     String.get (Z.to_nat n) raw_str = Some "010"%char) /\
  StronglySorted Z.lt (iter_indices_of_newlines raw_str).
Proof.
  rewrite iter_indices_of_newlines_spec. split.
  - intros n. rewrite <- is_newline_at_get. split.
    + intros H. apply in_newline_offsets in H. destruct H as [Hn Hnl].
      pose proof (is_newline_at_lt _ _ Hnl). unfold str_len.
      repeat split; try lia. assumption.
    + intros [[Hn _] Hnl]. apply newline_offset_in. now split.
  - apply filtered_range_sorted.
Qed.

(** ** Further properties: line and column *)

(** X2: the line returned for an offset is one more than the number of
    line-break characters of the text at offsets strictly below it (for
    a file built by the constructor and every integer offset). *)
Theorem line_counts_newlines_before (source_str : string)
    (templated_str fname : option string)
    (sliced_file : option (list sliced_elem)) (source : bool) (char_pos : Z) :
  let self := TemplatedFile.__init__ source_str templated_str fname sliced_file in
  exists col,
    TemplatedFile.get_line_pos_of_char_pos self char_pos source =
    Returns (newlines_before (selected_text self source) char_pos + 1, col).
Proof.
  intros self. unfold self. rewrite get_line_pos_of_char_pos_init. fold self.
  set (L := newline_offsets _).
  pose proof (line_pos_of_line L char_pos) as Hl.
  unfold L in Hl at 2. rewrite leading_below_count in Hl.
  destruct (line_pos_of L char_pos) as [line col]. simpl in Hl. subst line.
  now exists col.
Qed.

Lemma leading_below_nth (l : list Z) (cp : Z) (k : nat) :
  (k < leading_below l cp)%nat -> nth k l 0 < cp.
Proof.
  revert k. induction l as [|x r IH]; intros k; simpl; [lia|].
  destruct (Z.ltb_spec x cp); [|lia].
  destruct k as [|k]; [lia|]. intros Hk. apply IH. lia.
Qed.

(** X3: for a non-negative offset the line is between 1 and the number
    of line breaks of the text plus 1, and the column is between 1 and
    offset + 1. *)
Theorem line_and_column_bounds (source_str : string)
    (templated_str fname : option string)
    (sliced_file : option (list sliced_elem)) (source : bool) (char_pos : Z) :
  let self := TemplatedFile.__init__ source_str templated_str fname sliced_file in
  0 <= char_pos ->
  exists line col,
    TemplatedFile.get_line_pos_of_char_pos self char_pos source =
      Returns (line, col) /\
    1 <= line <= len (iter_indices_of_newlines (selected_text self source)) + 1 /\
    1 <= col <= char_pos + 1.
Proof.
  intros self Hpos. unfold self. rewrite get_line_pos_of_char_pos_init.
  fold self. rewrite iter_indices_of_newlines_spec.
  set (L := newline_offsets _).
  pose proof (leading_below_le L char_pos) as Hle.
  pose proof (leading_below_nth L char_pos) as Hnth.
  unfold line_pos_of, len.
  destruct (leading_below L char_pos) as [|k] eqn:E.
  - exists 1, (char_pos + 1). repeat split; lia.
  - exists (Z.of_nat k + 2), (char_pos - nth k L 0).
    specialize (Hnth k ltac:(lia)).
    assert (Hin : In (nth k L 0) L) by (apply nth_In; lia).
    apply in_newline_offsets in Hin. destruct Hin as [Hn _].
    repeat split; lia.
Qed.

Lemma line_and_column_bounds_witness :
  exists line col,
    TemplatedFile.get_line_pos_of_char_pos
      (TemplatedFile.__init__ three_lines None None None) 5 true =
      Returns (line, col) /\
    1 <= line <=
      len (iter_indices_of_newlines
             (selected_text (TemplatedFile.__init__ three_lines None None None)
                            true)) + 1 /\
    1 <= col <= 5 + 1.
Proof.
  apply (line_and_column_bounds three_lines None None None true 5). lia.
Defined.

(** X4: two different offsets never resolve to the same line and
    column (for any file and any integers). *)
Theorem line_pos_injective (self : TemplatedFile.t) (source : bool) (o1 o2 : Z) :
  o1 <> o2 ->
  TemplatedFile.get_line_pos_of_char_pos self o1 source <>
  TemplatedFile.get_line_pos_of_char_pos self o2 source.
Proof.
  rewrite !get_line_pos_of_char_pos_run.
  set (ref_str := if source then _ else _). intros Hne H. injection H as H.
  destruct (Z.lt_trichotomy o1 o2) as [Hlt|[Heq|Hgt]]; [|contradiction|].
  - destruct (line_pos_of_mono ref_str o1 o2 Hlt) as [_ Hcol].
    rewrite H in Hcol. specialize (Hcol eq_refl). lia.
  - destruct (line_pos_of_mono ref_str o2 o1 ltac:(lia)) as [_ Hcol].
    rewrite H in Hcol. specialize (Hcol eq_refl). lia.
Qed.

Lemma line_pos_injective_witness :
  TemplatedFile.get_line_pos_of_char_pos
    (TemplatedFile.__init__ three_lines None None None) 1 true <>
  TemplatedFile.get_line_pos_of_char_pos
    (TemplatedFile.__init__ three_lines None None None) 4 true.
Proof.
  apply (line_pos_injective
           (TemplatedFile.__init__ three_lines None None None) true 1 4).
  lia.
Defined.

(** ** Further properties: the raw templater *)

(** X5: the file produced by [RawTemplater.process] is untemplated: its
    string is the input, it is truthy exactly when the input is
    non-empty, every offset resolves alike in the source and in the
    templated view, every slice translates to itself with the flag
    [False], and no templating error is reported; the templater's own
    attributes play no part. *)
Theorem raw_process_is_identity (self : templater) (in_str : string)
    (fname : option string) :
  let file := fst (RawTemplater.process self in_str fname) in
  TemplatedFile.__str__ file = in_str /\
  TemplatedFile.source_str file = in_str /\
  (TemplatedFile.__bool__ file = true <-> in_str <> EmptyString) /\
  (forall char_pos,
     TemplatedFile.get_line_pos_of_char_pos file char_pos true =
     TemplatedFile.get_line_pos_of_char_pos file char_pos false) /\
  (forall template_slice,
     TemplatedFile.template_slice_to_source_slice file template_slice =
     Returns (template_slice, false)) /\
  snd (RawTemplater.process self in_str fname) = [].
Proof.
  cbn [fst snd RawTemplater.process]. repeat split.
  - unfold TemplatedFile.__bool__. simpl.
    destruct in_str; [discriminate|intros _; discriminate].
  - unfold TemplatedFile.__bool__. simpl.
    destruct in_str; [congruence|reflexivity].
Qed.

(** ** Further properties: the window of relevant slices *)

Lemma scan_until_spec (cond : sliced_elem -> bool) (l : list sliced_elem)
    (a : nat) (acc : Z) :
  l <> [] ->
  exists k : nat,
    TemplatedFile.scan_until cond
      (combine (map Z.of_nat (seq a (List.length l))) l) acc =
      Z.of_nat (a + k) /\
    (k < List.length l)%nat /\
    Forall (fun e => cond e = false) (firstn k l) /\
    ((exists e, nth_error l k = Some e /\ cond e = true) \/
     (S k = List.length l /\
      forall e, nth_error l k = Some e -> cond e = false)).
Proof.
  revert a acc. induction l as [|x r IH]; intros a acc Hne; [congruence|].
  cbn [List.length seq map combine TemplatedFile.scan_until].
  destruct (cond x) eqn:Hx.
  - exists 0%nat. repeat split; [f_equal; lia|simpl; lia|constructor|].
    left. now exists x.
  - destruct r as [|y r'].
    + exists 0%nat. simpl. repeat split; [f_equal; lia|lia|constructor|].
      right. split; [reflexivity|]. intros e E. now injection E as <-.
    + destruct (IH (S a) (Z.of_nat a) ltac:(discriminate))
        as (k & Hk & Hlt & Hall & Hlast).
      exists (S k). repeat split.
      * rewrite Hk. f_equal. lia.
      * simpl in *. lia.
      * cbn [firstn]. now constructor.
      * cbn [nth_error]. destruct Hlast as [H|[Hk' H]]; [now left|right].
        split; [simpl in *; lia|exact H].
Qed.

Lemma relevant_slices_shape (sliced_file : list sliced_elem)
    (template_slice : slice) :
  sliced_file <> [] ->
  let c1 := fun elem => stop (elem2 elem) >? start template_slice in
  let c2 := fun elem => stop (elem2 elem) >=? stop template_slice in
  exists k1 k2 : nat,
    TemplatedFile.relevant_slices sliced_file template_slice =
      firstn (S k2) (skipn k1 sliced_file) /\
    (k1 + k2 < List.length sliced_file)%nat /\
    Forall (fun e => c1 e = false) (firstn k1 sliced_file) /\
    ((exists e, nth_error sliced_file k1 = Some e /\ c1 e = true) \/
     S k1 = List.length sliced_file) /\
    Forall (fun e => c2 e = false) (firstn k2 (skipn k1 sliced_file)) /\
    ((exists e, nth_error (skipn k1 sliced_file) k2 = Some e /\ c2 e = true) \/
     S (k1 + k2) = List.length sliced_file).
Proof.
  intros Hne c1 c2. unfold TemplatedFile.relevant_slices.
  fold c1. fold c2.
  destruct (scan_until_spec c1 sliced_file 0 0 Hne)
    as (k1 & Hk1 & Hlt1 & Hall1 & Hlast1).
  fold (py_enumerate sliced_file) in Hk1. rewrite Hk1. simpl plus.
  assert (Htail : py_getslice sliced_file (Some (Z.of_nat k1)) None =
                  skipn k1 sliced_file).
  { unfold py_getslice, py_clamp, len.
    destruct (Z.ltb_spec (Z.of_nat k1) 0); [lia|].
    rewrite Z.min_l by lia. rewrite Nat2Z.id.
    apply firstn_all2. rewrite length_skipn. lia. }
  rewrite Htail.
  set (tail := skipn k1 sliced_file).
  assert (Hlen : List.length tail = (List.length sliced_file - k1)%nat)
    by apply length_skipn.
  assert (Htne : tail <> []).
  { intros E. rewrite E in Hlen. simpl in Hlen. lia. }
  destruct (scan_until_spec c2 tail 0 0 Htne)
    as (k2 & Hk2 & Hlt2 & Hall2 & Hlast2).
  fold (py_enumerate tail) in Hk2. rewrite Hk2. simpl plus.
  exists k1, k2. repeat split.
  - unfold py_getslice, py_clamp, len.
    destruct (Z.ltb_spec (Z.of_nat k1) 0); [lia|].
    destruct (Z.ltb_spec (Z.of_nat k2 + (Z.of_nat k1 + 1)) 0); [lia|].
    rewrite !Z.min_l by lia. rewrite Nat2Z.id. fold tail.
    f_equal. lia.
  - lia.
  - exact Hall1.
  - destruct Hlast1 as [H|[H _]]; [now left|now right].
  - exact Hall2.
  - destruct Hlast2 as [H|[H _]]; [now left|right; lia].
Qed.

Lemma firstn_S_nth_error {A : Type} (l : list A) (k : nat) (e : A) :
  nth_error l k = Some e -> firstn (S k) l = firstn k l ++ [e].
Proof.
  revert k. induction l as [|x r IH]; intros k E.
  - destruct k; discriminate.
  - destruct k as [|k]; simpl in *.
    + now injection E as ->.
    + f_equal. now apply IH.
Qed.

(** The window as a piece of the table: what precedes it, its first and
    last elements, and what follows it. *)
Lemma relevant_slices_parts (sliced_file : list sliced_elem)
    (template_slice : slice) :
  sliced_file <> [] ->
  exists (pre body post : list sliced_elem) (first last : sliced_elem),
    sliced_file = pre ++ TemplatedFile.relevant_slices sliced_file template_slice
                      ++ post /\
    TemplatedFile.relevant_slices sliced_file template_slice = body ++ [last] /\
    hd_error (body ++ [last]) = Some first /\
    Forall (fun e => stop (elem2 e) <= start template_slice) pre /\
    (start template_slice < stop (elem2 first) \/ (body = [] /\ post = [])) /\
    Forall (fun e => stop (elem2 e) < stop template_slice) body /\
    (stop template_slice <= stop (elem2 last) \/ post = []).
Proof.
  intros Hne.
  destruct (relevant_slices_shape sliced_file template_slice Hne)
    as (k1 & k2 & Hrel & Hlt & Hpre & Hfirst & Hbody & Hlast).
  set (tail := skipn k1 sliced_file) in *.
  assert (Hlen : List.length tail = (List.length sliced_file - k1)%nat)
    by apply length_skipn.
  destruct (nth_error tail k2) as [last|] eqn:Elast;
    [|apply nth_error_None in Elast; lia].
  destruct (nth_error sliced_file k1) as [first|] eqn:Efirst;
    [|apply nth_error_None in Efirst; lia].
  exists (firstn k1 sliced_file), (firstn k2 tail), (skipn (S k2) tail),
    first, last.
  rewrite Hrel, (firstn_S_nth_error tail k2 last Elast).
  assert (Htail : tail = first :: skipn (S k1) sliced_file)
    by (apply skipn_nth_error; exact Efirst).
  repeat split.
  - rewrite <- (firstn_S_nth_error tail k2 last Elast).
    rewrite (firstn_skipn (S k2) tail). unfold tail.
    now rewrite (firstn_skipn k1 sliced_file).
  - rewrite <- (firstn_S_nth_error tail k2 last Elast).
    rewrite Htail. reflexivity.
  - eapply Forall_impl; [|exact Hpre]. intros e He. cbv beta in He.
    destruct (Z.gtb_spec (stop (elem2 e)) (start template_slice));
      [discriminate|lia].
  - destruct Hfirst as [(e & He & Hc)|Hk1].
    + left. assert (e = first) by congruence. subst e. cbv beta in Hc.
      destruct (Z.gtb_spec (stop (elem2 first)) (start template_slice));
        [lia|discriminate].
    + right. assert (k2 = 0%nat) by lia. subst k2. split; [reflexivity|].
      apply skipn_all2. lia.
  - eapply Forall_impl; [|exact Hbody]. intros e He. cbv beta in He.
    destruct (Z.geb_spec (stop (elem2 e)) (stop template_slice));
      [discriminate|lia].
  - destruct Hlast as [(e & He & Hc)|Hk].
    + left. assert (e = last) by congruence. subst e. cbv beta in Hc.
      destruct (Z.geb_spec (stop (elem2 last)) (stop template_slice));
        [lia|discriminate].
    + right. apply skipn_all2. lia.
Qed.

(** X6: with a non-empty table, the window is a non-empty run of
    consecutive elements of the table.  Every element before it ends,
    in the templated text, at or before the start of the requested
    slice; its first element ends after that start, unless no element
    does, in which case the window is the last element alone.  Every
    element of the window but the last ends before the stop of the
    requested slice; the last one ends at or after it, unless the table
    is exhausted. *)
Theorem relevant_slices_window (sliced_file : list sliced_elem)
    (template_slice : slice) :
  sliced_file <> [] ->
  let slices := TemplatedFile.relevant_slices sliced_file template_slice in
  exists (pre post : list sliced_elem) (first last : sliced_elem),
    sliced_file = pre ++ slices ++ post /\
    hd_error slices = Some first /\
    List.last slices first = last /\
    Forall (fun e => stop (elem2 e) <= start template_slice) pre /\
    (start template_slice < stop (elem2 first) \/
     (slices = [first] /\ post = [])) /\
    Forall (fun e => stop (elem2 e) < stop template_slice)
           (removelast slices) /\
    (stop template_slice <= stop (elem2 last) \/ post = []).
Proof.
  intros Hne slices.
  destruct (relevant_slices_parts sliced_file template_slice Hne)
    as (pre & body & post & first & last & Hsf & Hsl & Hhd & Hpre & Hfirst
        & Hbody & Hlast).
  fold slices in Hsf, Hsl. exists pre, post, first, last.
  rewrite Hsl. rewrite last_last, removelast_last. repeat split; try assumption.
  - rewrite <- Hsl. exact Hsf.
  - destruct Hfirst as [H|[Hb Hp]]; [now left|right].
    subst body post. simpl in Hhd. injection Hhd as ->. now split.
Qed.

Lemma relevant_slices_window_witness :
  exists (pre post : list sliced_elem) (first last : sliced_elem),
    ref_sliced_file =
      pre ++ TemplatedFile.relevant_slices ref_sliced_file (Slice 3 18) ++ post /\
    hd_error (TemplatedFile.relevant_slices ref_sliced_file (Slice 3 18)) =
      Some first /\
    List.last (TemplatedFile.relevant_slices ref_sliced_file (Slice 3 18)) first =
      last /\
    Forall (fun e => stop (elem2 e) <= start (Slice 3 18)) pre /\
    (start (Slice 3 18) < stop (elem2 first) \/
     (TemplatedFile.relevant_slices ref_sliced_file (Slice 3 18) = [first] /\
      post = [])) /\
    Forall (fun e => stop (elem2 e) < stop (Slice 3 18))
           (removelast (TemplatedFile.relevant_slices ref_sliced_file (Slice 3 18))) /\
    (stop (Slice 3 18) <= stop (elem2 last) \/ post = []).
Proof.
  apply (relevant_slices_window ref_sliced_file (Slice 3 18)). discriminate.
Defined.

(** ** Further properties: the translated slice *)

Lemma templated_end_app (p : Z) (A B : list sliced_elem) :
  templated_end p (A ++ B) = templated_end (templated_end p A) B.
Proof. unfold templated_end. apply fold_left_app. Qed.

Lemma contiguous_from_app (p : Z) (A B : list sliced_elem) :
  contiguous_from p (A ++ B) ->
  contiguous_from p A /\ contiguous_from (templated_end p A) B.
Proof.
  revert p. induction A as [|e A IH]; intros p H; simpl in *.
  - now split.
  - destruct H as (Hs & Hle & Hrest). apply IH in Hrest.
    destruct Hrest as [HA HB]. repeat split; assumption.
Qed.

Lemma templated_end_bound (p a : Z) (A : list sliced_elem) :
  p <= a -> Forall (fun e => stop (elem2 e) <= a) A ->
  templated_end p A <= a.
Proof.
  intros Hp HA. revert p Hp. induction HA as [|e A He _ IH]; intros p Hp.
  - exact Hp.
  - apply IH. exact He.
Qed.

Lemma start_boundary_hd (slices : list sliced_elem) (first : sliced_elem)
    (template_slice : slice) :
  hd_error slices = Some first ->
  TemplatedFile.start_boundary slices template_slice =
  Returns (if is_literal_elem first
           then start (elem1 first) +
                (start template_slice - start (elem2 first))
           else start (elem1 first)).
Proof.
  destruct slices as [|e r]; [discriminate|]. intros H. injection H as ->.
  unfold TemplatedFile.start_boundary, is_literal_elem.
  change (py_getitem (first :: r) 0) with (Returns first). cbn [bind].
  now destruct (String.eqb (elem0 first) "literal").
Qed.

Lemma py_getitem_last_app {A : Type} (body : list A) (last : A) :
  py_getitem (body ++ [last]) (-1) = Returns last.
Proof.
  unfold py_getitem, len. change (-1 <? 0) with true. cbv iota.
  rewrite length_app. cbn [List.length].
  destruct (Z.leb_spec 0 (-1 + Z.of_nat (List.length body + 1))); [|lia].
  destruct (Z.ltb_spec (-1 + Z.of_nat (List.length body + 1))
                       (Z.of_nat (List.length body + 1))); [|lia].
  cbn [andb].
  replace (Z.to_nat (-1 + Z.of_nat (List.length body + 1)))
    with (List.length body) by lia.
  now rewrite nth_error_app2, Nat.sub_diag by lia.
Qed.

Lemma stop_boundary_last (body : list sliced_elem) (last : sliced_elem)
    (template_slice : slice) :
  TemplatedFile.stop_boundary (body ++ [last]) template_slice =
  Returns (if is_literal_elem last
           then stop (elem1 last) -
                (stop (elem2 last) - stop template_slice)
           else stop (elem1 last)).
Proof.
  unfold TemplatedFile.stop_boundary, is_literal_elem.
  rewrite py_getitem_last_app. cbn [bind].
  now destruct (String.eqb (elem0 last) "literal").
Qed.

(** X7: when the templated slices of a non-empty table follow one
    another from offset 0 and the requested slice starts at or after 0
    and stops at or before the end of the table, the window is itself a
    contiguous run whose first element starts at or before the start of
    the requested slice and whose last element stops at or after its
    stop: the window covers the requested slice. *)
Theorem window_covers_slice (sliced_file : list sliced_elem)
    (template_slice : slice) :
  sliced_file <> [] ->
  contiguous_from 0 sliced_file ->
  0 <= start template_slice ->
  stop template_slice <= templated_end 0 sliced_file ->
  let slices := TemplatedFile.relevant_slices sliced_file template_slice in
  exists first last : sliced_elem,
    hd_error slices = Some first /\
    List.last slices first = last /\
    contiguous_from (start (elem2 first)) slices /\
    start (elem2 first) <= start template_slice /\
    stop template_slice <= stop (elem2 last).
Proof.
  intros Hne Hcont Hstart Hstop slices.
  destruct (relevant_slices_parts sliced_file template_slice Hne)
    as (pre & body & post & first & last & Hsf & Hsl & Hhd & Hpre & _
        & _ & Hlast).
  fold slices in Hsf, Hsl. exists first, last.
  rewrite Hsf in Hcont. apply contiguous_from_app in Hcont.
  destruct Hcont as [_ Hcont]. apply contiguous_from_app in Hcont.
  destruct Hcont as [Hcont _].
  pose proof (templated_end_bound 0 _ pre Hstart Hpre) as Hend.
  assert (Hfirst : start (elem2 first) = templated_end 0 pre).
  { rewrite Hsl in Hcont. destruct body as [|e body]; simpl in Hhd, Hcont;
      injection Hhd as ->; now destruct Hcont. }
  rewrite Hsl at 1 2. rewrite last_last. rewrite Hfirst.
  repeat split; try assumption.
  destruct Hlast as [H| ->]; [exact H|].
  rewrite Hsf, Hsl, app_nil_r, !templated_end_app in Hstop. exact Hstop.
Qed.

Lemma window_covers_slice_witness :
  exists first last : sliced_elem,
    hd_error (TemplatedFile.relevant_slices ref_sliced_file (Slice 3 18)) =
      Some first /\
    List.last (TemplatedFile.relevant_slices ref_sliced_file (Slice 3 18)) first =
      last /\
    contiguous_from (start (elem2 first))
      (TemplatedFile.relevant_slices ref_sliced_file (Slice 3 18)) /\
    start (elem2 first) <= start (Slice 3 18) /\
    stop (Slice 3 18) <= stop (elem2 last).
Proof.
  apply (window_covers_slice ref_sliced_file (Slice 3 18)).
  - discriminate.
  - simpl. lia.
  - simpl. lia.
  - vm_compute. discriminate.
Defined.

Lemma in_relevant_slices (sliced_file : list sliced_elem)
    (template_slice : slice) (e : sliced_elem) :
  sliced_file <> [] ->
  In e (TemplatedFile.relevant_slices sliced_file template_slice) ->
  In e sliced_file.
Proof.
  intros Hne He.
  destruct (relevant_slices_parts sliced_file template_slice Hne)
    as (pre & body & post & first & last & Hsf & _).
  rewrite Hsf. apply in_or_app. right. apply in_or_app. now left.
Qed.

(** X8: with a non-empty table none of whose source slices is reversed,
    the returned source slice is never reversed (start <= stop),
    whatever the requested slice. *)
Theorem translated_slice_not_reversed (self : TemplatedFile.t)
    (sliced_file : list sliced_elem) (template_slice : slice) :
  TemplatedFile.sliced_file self = Some sliced_file ->
  sliced_file <> [] ->
  Forall (fun e => start (elem1 e) <= stop (elem1 e)) sliced_file ->
  exists (source_slice : slice) (is_literal : bool),
    TemplatedFile.template_slice_to_source_slice self template_slice =
      Returns (source_slice, is_literal) /\
    start source_slice <= stop source_slice.
Proof.
  intros Hsf Hne Hvalid.
  destruct (translate_with_table self sliced_file template_slice Hsf Hne)
    as (a & b & lo & hi & _ & _ & Hlo & Hhi & Hres).
  eexists _, _. split; [exact Hres|].
  destruct (Z.gtb_spec a b); simpl; [|assumption].
  destruct Hlo as [(e & He & _) Hle]. destruct Hhi as [_ Hge].
  specialize (Hle e He). specialize (Hge e He). cbv beta in Hle, Hge.
  apply (in_relevant_slices _ _ _ Hne) in He.
  rewrite Forall_forall in Hvalid. specialize (Hvalid e He). lia.
Qed.

Lemma translated_slice_not_reversed_witness :
  exists (source_slice : slice) (is_literal : bool),
    TemplatedFile.template_slice_to_source_slice swapped_file (Slice 0 10) =
      Returns (source_slice, is_literal) /\
    start source_slice <= stop source_slice.
Proof.
  apply (translated_slice_not_reversed swapped_file swapped_sliced_file
           (Slice 0 10)).
  - reflexivity.
  - discriminate.
  - repeat constructor; simpl; lia.
Defined.

(** X9: when every element of a non-empty table is literal and its
    source slice is its templated slice moved by one and the same
    distance [d], every slice with start <= stop translates to itself
    moved by [d], with the flag [True]; with [d = 0] the translation is
    the identity. *)
Theorem shifted_literal_table_translation (self : TemplatedFile.t)
    (sliced_file : list sliced_elem) (d a b : Z) :
  TemplatedFile.sliced_file self = Some sliced_file ->
  sliced_file <> [] ->
  Forall (fun e => elem0 e = "literal"%string /\
                   start (elem1 e) = start (elem2 e) + d /\
                   stop (elem1 e) = stop (elem2 e) + d) sliced_file ->
  a <= b ->
  TemplatedFile.template_slice_to_source_slice self (Slice a b) =
  Returns (Slice (a + d) (b + d), true).
Proof.
  intros Hsf Hne Hall Hab.
  destruct (translate_with_table self sliced_file (Slice a b) Hsf Hne)
    as (a' & b' & lo & hi & Ha & Hb & _ & _ & Hres).
  destruct (relevant_slices_parts sliced_file (Slice a b) Hne)
    as (pre & body & post & first & last & Hparts & Hsl & Hhd & _).
  rewrite Forall_forall in Hall.
  assert (Hin : forall e,
            In e (TemplatedFile.relevant_slices sliced_file (Slice a b)) ->
            is_literal_elem e = true /\
            start (elem1 e) = start (elem2 e) + d /\
            stop (elem1 e) = stop (elem2 e) + d).
  { intros e He. apply (in_relevant_slices _ _ _ Hne) in He.
    destruct (Hall e He) as (Hk & Hs & Ht). unfold is_literal_elem.
    rewrite Hk. now repeat split. }
  assert (Hflag : forallb is_literal_elem
                    (TemplatedFile.relevant_slices sliced_file (Slice a b)) = true).
  { apply forallb_forall. intros e He. now apply Hin. }
  rewrite Hflag in Hres. rewrite Hres.
  rewrite Hsl in Ha, Hb, Hin.
  rewrite (start_boundary_hd _ first _ Hhd) in Ha.
  rewrite stop_boundary_last in Hb.
  assert (Hf : In first (body ++ [last])).
  { destruct body; simpl in Hhd; injection Hhd as ->; now left. }
  assert (Hl : In last (body ++ [last])) by (apply in_or_app; right; now left).
  destruct (Hin first Hf) as (Hk1 & Hs1 & _).
  destruct (Hin last Hl) as (Hk2 & _ & Ht2).
  rewrite Hk1 in Ha. rewrite Hk2 in Hb.
  injection Ha as <-. injection Hb as <-. cbn [start stop].
  destruct (Z.gtb_spec (start (elem1 first) + (a - start (elem2 first)))
                       (stop (elem1 last) - (stop (elem2 last) - b))); [lia|].
  do 2 f_equal. f_equal; lia.
Qed.

Lemma shifted_literal_table_translation_witness :
  TemplatedFile.template_slice_to_source_slice
    (TemplatedFile.__init__ ref_source None None
       (Some [ ("literal"%string, Slice 5 9, Slice 0 4);
               ("literal"%string, Slice 9 15, Slice 4 10) ]))
    (Slice 2 7) =
  Returns (Slice (2 + 5) (7 + 5), true).
Proof.
  apply (shifted_literal_table_translation _
           [ ("literal"%string, Slice 5 9, Slice 0 4);
             ("literal"%string, Slice 9 15, Slice 4 10) ] 5 2 7).
  - reflexivity.
  - discriminate.
  - repeat constructor.
  - lia.
Defined.

(** X10: when the templated slices of a non-empty table follow one
    another from offset 0 and the requested slice lies between 0 and
    the end of the table, the returned source slice stays within the
    widest span of the window: it starts at or after the least source
    start and stops at or before the greatest source stop of the
    window's elements. *)
Theorem translated_slice_within_window (self : TemplatedFile.t)
    (sliced_file : list sliced_elem) (template_slice : slice) :
  TemplatedFile.sliced_file self = Some sliced_file ->
  sliced_file <> [] ->
  contiguous_from 0 sliced_file ->
  0 <= start template_slice ->
  stop template_slice <= templated_end 0 sliced_file ->
  let slices := TemplatedFile.relevant_slices sliced_file template_slice in
  exists (source_slice : slice) (is_literal : bool) (lo hi : Z),
    TemplatedFile.template_slice_to_source_slice self template_slice =
      Returns (source_slice, is_literal) /\
    least_over (fun elem => start (elem1 elem)) slices lo /\
    greatest_over (fun elem => stop (elem1 elem)) slices hi /\
    lo <= start source_slice /\ stop source_slice <= hi.
Proof.
  intros Hsf Hne Hcont Hstart Hstop slices.
  destruct (translate_with_table self sliced_file template_slice Hsf Hne)
    as (a & b & lo & hi & Ha & Hb & Hlo & Hhi & Hres).
  fold slices in Ha, Hb, Hlo, Hhi, Hres.
  eexists _, _, lo, hi. split; [exact Hres|].
  split; [exact Hlo|]. split; [exact Hhi|].
  destruct (Z.gtb_spec a b); cbn [start stop]; [lia|].
  destruct (relevant_slices_parts sliced_file template_slice Hne)
    as (pre & body & post & first & last & Hparts & Hsl & Hhd & Hpre & _
        & _ & Hlast).
  fold slices in Hparts, Hsl.
  assert (Hfs : start (elem2 first) <= start template_slice).
  { rewrite Hparts in Hcont. apply contiguous_from_app in Hcont.
    destruct Hcont as [_ Hcont]. apply contiguous_from_app in Hcont.
    destruct Hcont as [Hcont _].
    pose proof (templated_end_bound 0 _ pre Hstart Hpre) as Hend.
    rewrite Hsl in Hcont. destruct body as [|e body]; simpl in Hhd, Hcont;
      injection Hhd as ->; destruct Hcont as [-> _]; exact Hend. }
  assert (Hls : stop template_slice <= stop (elem2 last)).
  { destruct Hlast as [Hfound| ->]; [exact Hfound|].
    rewrite Hparts, Hsl, app_nil_r, !templated_end_app in Hstop. exact Hstop. }
  rewrite Hsl in Ha, Hb, Hlo, Hhi.
  rewrite (start_boundary_hd _ first _ Hhd) in Ha.
  rewrite stop_boundary_last in Hb.
  assert (Hf : In first (body ++ [last])).
  { destruct body; simpl in Hhd; injection Hhd as ->; now left. }
  assert (Hl : In last (body ++ [last])) by (apply in_or_app; right; now left).
  destruct Hlo as [_ Hlo]. destruct Hhi as [_ Hhi].
  specialize (Hlo first Hf). specialize (Hhi last Hl). cbv beta in Hlo, Hhi.
  injection Ha as <-. injection Hb as <-.
  split.
  - destruct (is_literal_elem first); lia.
  - destruct (is_literal_elem last); lia.
Qed.

Lemma translated_slice_within_window_witness :
  exists (source_slice : slice) (is_literal : bool) (lo hi : Z),
    TemplatedFile.template_slice_to_source_slice ref_file (Slice 3 18) =
      Returns (source_slice, is_literal) /\
    least_over (fun elem => start (elem1 elem))
      (TemplatedFile.relevant_slices ref_sliced_file (Slice 3 18)) lo /\
    greatest_over (fun elem => stop (elem1 elem))
      (TemplatedFile.relevant_slices ref_sliced_file (Slice 3 18)) hi /\
    lo <= start source_slice /\ stop source_slice <= hi.
Proof.
  apply (translated_slice_within_window ref_file ref_sliced_file (Slice 3 18)).
  - reflexivity.
  - discriminate.
  - simpl. lia.
  - simpl. lia.
  - vm_compute. discriminate.
Defined.

(** ** Further properties: the registry of templaters *)

Lemma dict_get_set_same (d : lookup_table) (k : string) (v : templater_class) :
  dict_get (dict_set d k v) k = Some v.
Proof.
  induction d as [|[k' v'] r IH]; simpl.
  - now rewrite String.eqb_refl.
  - destruct (String.eqb k' k) eqn:E; simpl; rewrite E; [reflexivity|exact IH].
Qed.

Lemma dict_get_set_other (d : lookup_table) (k k0 : string)
    (v : templater_class) :
  k0 <> k -> dict_get (dict_set d k v) k0 = dict_get d k0.
Proof.
  intros Hne. induction d as [|[k' v'] r IH]; simpl.
  - destruct (String.eqb_spec k k0); [congruence|reflexivity].
  - destruct (String.eqb_spec k' k) as [->|Hk]; simpl.
    + destruct (String.eqb_spec k k0); [congruence|reflexivity].
    + destruct (String.eqb k' k0); [reflexivity|exact IH].
Qed.

Lemma dict_keys_set (d : lookup_table) (k : string) (v : templater_class) :
  dict_keys (dict_set d k v) =
  if existsb (String.eqb k) (dict_keys d) then dict_keys d
  else dict_keys d ++ [k].
Proof.
  unfold dict_keys.
  induction d as [|[k' v'] r IH]; cbn [dict_set map fst existsb app];
    [reflexivity|].
  rewrite (String.eqb_sym k k').
  destruct (String.eqb k' k) eqn:E; cbn [map fst orb]; [reflexivity|].
  rewrite IH. now destruct (existsb (String.eqb k) (map fst r)).
Qed.

Lemma class_name_truthy (cls : templater_class) :
  TemplatedFile.str_or (Some (class_name cls)) "jinja" = class_name cls.
Proof. now destruct cls. Qed.

(** X11: after [register_templater(cls)], selecting by the name of the
    class returns a new instance of that very class, whatever was
    registered under the name before; the decorator returns the class
    unchanged. *)
Theorem register_then_select (cls : templater_class) (d : lookup_table) :
  templater_selector (Some (class_name cls)) (fst (register_templater cls d)) =
    Returns (instantiate cls) /\
  snd (register_templater cls d) = cls.
Proof.
  unfold templater_selector, register_templater. cbn [fst snd].
  now rewrite class_name_truthy, dict_get_set_same.
Qed.

(** X12: registering a class changes nothing for any other requested
    name: the selector answers as it did before, and the names already
    registered keep their order. *)
Theorem register_keeps_other_names (cls : templater_class) (d : lookup_table)
    (s : option string) :
  TemplatedFile.str_or s "jinja" <> class_name cls ->
  templater_selector s (fst (register_templater cls d)) =
    templater_selector s d /\
  exists added, dict_keys (fst (register_templater cls d)) =
                dict_keys d ++ added.
Proof.
  intros Hne. unfold templater_selector, register_templater. cbn [fst].
  split.
  - now rewrite dict_get_set_other.
  - rewrite dict_keys_set. destruct (existsb _ _).
    + exists []. now rewrite app_nil_r.
    + now exists [class_name cls].
Qed.

Lemma register_keeps_other_names_witness :
  templater_selector (Some "raw"%string)
    (fst (register_templater DataformTemplater_class lookup_at_import)) =
    templater_selector (Some "raw"%string) lookup_at_import /\
  exists added,
    dict_keys (fst (register_templater DataformTemplater_class lookup_at_import)) =
    dict_keys lookup_at_import ++ added.
Proof.
  apply (register_keeps_other_names DataformTemplater_class lookup_at_import
           (Some "raw"%string)).
  discriminate.
Defined.

Lemma dict_get_in_keys (d : lookup_table) (k : string) :
  dict_get d k = None <-> ~ In k (dict_keys d).
Proof.
  induction d as [|[k' v'] r IH]; simpl.
  - split; [intros _ []|reflexivity].
  - destruct (String.eqb_spec k' k) as [->|Hk].
    + split; [discriminate|]. intros H. exfalso. apply H. now left.
    + rewrite IH. split.
      * intros H [E|Hin]; [congruence|now apply H].
      * intros H Hin. apply H. now right.
Qed.

(** X13: a missing or empty name selects ["jinja"]; the selector raises
    [ValueError] exactly when the requested name is not registered; and
    in a registry filled by [register_templater] the returned instance
    is of a class whose [name] is the requested one.  Once the module
    is loaded only ["raw"] is registered, so the default selection
    raises [ValueError]. *)
Theorem selector_default_and_errors :
  (forall d : lookup_table,
     templater_selector None d = templater_selector (Some "jinja"%string) d /\
     templater_selector (Some EmptyString) d =
       templater_selector (Some "jinja"%string) d) /\
  (forall (d : lookup_table) (s : option string),
     templater_selector s d = Raises ValueError <->
     ~ In (TemplatedFile.str_or s "jinja") (dict_keys d)) /\
  (forall (d : lookup_table) (s : option string) (t : templater),
     registered d ->
     templater_selector s d = Returns t ->
     class_name (__class__ t) = TemplatedFile.str_or s "jinja") /\
  templater_selector None lookup_at_import = Raises ValueError.
Proof.
  split; [|split; [|split]].
  - intros d. split; reflexivity.
  - intros d s. unfold templater_selector.
    rewrite <- dict_get_in_keys.
    destruct (dict_get d _); split; congruence.
  - intros d s t Hreg. unfold templater_selector.
    set (k := TemplatedFile.str_or s "jinja"). clearbody k.
    induction Hreg as [|cls d Hreg IH]; [discriminate|].
    unfold register_templater. cbn [fst].
    destruct (String.eqb_spec k (class_name cls)) as [->|Hne].
    + rewrite dict_get_set_same. intros H. now injection H as <-.
    + rewrite dict_get_set_other by assumption. exact IH.
  - reflexivity.
Qed.

Lemma selector_default_and_errors_witness :
  class_name (__class__ (instantiate RawTemplater_class)) =
  TemplatedFile.str_or (Some "raw"%string) "jinja".
Proof.
  apply (proj1 (proj2 (proj2 selector_default_and_errors)) lookup_at_import).
  - exact (registered_step RawTemplater_class [] registered_empty).
  - reflexivity.
Defined.

(** ** Further properties: templater equality *)

Lemma eq_by_class (self other : templater) :
  RawTemplater.__eq__ self other =
  match __class__ self, __class__ other with
  | DataformTemplater_class, RawTemplater_class => false
  | _, _ => true
  end.
Proof.
  unfold RawTemplater.__eq__, isinstance.
  now destruct (__class__ self), (__class__ other).
Qed.

(** X14: [__eq__] looks at the classes only, never at the attributes of
    the instances; it is transitive, and two templaters that are equal
    in both directions are of the same class. *)
Theorem eq_is_shallow_preorder :
  (forall a b a' b' : templater,
     __class__ a = __class__ a' -> __class__ b = __class__ b' ->
     RawTemplater.__eq__ a b = RawTemplater.__eq__ a' b') /\
  (forall a b c : templater,
     RawTemplater.__eq__ a b = true -> RawTemplater.__eq__ b c = true ->
     RawTemplater.__eq__ a c = true) /\
  (forall a b : templater,
     RawTemplater.__eq__ a b = true -> RawTemplater.__eq__ b a = true ->
     __class__ a = __class__ b).
Proof.
  split; [|split].
  - intros a b a' b' Ha Hb. rewrite !eq_by_class. now rewrite Ha, Hb.
  - intros a b c. rewrite !eq_by_class.
    destruct (__class__ a), (__class__ b), (__class__ c);
      congruence || discriminate.
  - intros a b. rewrite !eq_by_class.
    destruct (__class__ a), (__class__ b); congruence || discriminate.
Qed.

Lemma eq_is_shallow_preorder_witness :
  RawTemplater.__eq__ dataform_instance (instantiate DataformTemplater_class) =
    RawTemplater.__eq__ (instantiate DataformTemplater_class) dataform_instance /\
  RawTemplater.__eq__ raw_instance dataform_instance = true /\
  __class__ dataform_instance = __class__ (instantiate DataformTemplater_class).
Proof.
  split; [|split].
  - apply (proj1 eq_is_shallow_preorder); reflexivity.
  - apply (proj1 (proj2 eq_is_shallow_preorder) raw_instance raw_instance
             dataform_instance); reflexivity.
  - apply (proj2 (proj2 eq_is_shallow_preorder)); reflexivity.
Defined.

(** X15: evaluated through the [==] operator, which gives the method of
    a subclass operand the first try, two templaters are equal exactly
    when they are of the same class; so [==] is symmetric although
    [__eq__] alone is not. *)
Theorem operator_eq_compares_classes (v w : templater) :
  (py_eq v w = true <-> __class__ v = __class__ w) /\
  py_eq v w = py_eq w v.
Proof.
  unfold py_eq, RawTemplater.__eq__, isinstance.
  destruct (__class__ v), (__class__ w); simpl; repeat split;
    congruence || discriminate.
Qed.

(** ** Further properties: the dataform text rewriting *)

Lemma append_assoc (a b c : string) :
  ((a ++ b) ++ c = a ++ (b ++ c))%string.
Proof. induction a as [|x a IH]; simpl; [reflexivity|now rewrite IH]. Qed.

Lemma length_append (a b : string) :
  String.length (a ++ b) = (String.length a + String.length b)%nat.
Proof. induction a as [|x a IH]; simpl; [reflexivity|now rewrite IH]. Qed.

Lemma count_char_append (c : ascii) (a b : string) :
  count_char c (a ++ b) = (count_char c a + count_char c b)%nat.
Proof.
  induction a as [|x a IH]; simpl; [reflexivity|].
  destruct (Ascii.eqb x c); simpl; now rewrite IH.
Qed.

Lemma count_char_le_length (c : ascii) (a : string) :
  (count_char c a <= String.length a)%nat.
Proof.
  induction a as [|x a IH]; simpl; [lia|]. destruct (Ascii.eqb x c); lia.
Qed.

Lemma repeat_char_length (c : ascii) (n : nat) :
  String.length (repeat_char c n) = n.
Proof. induction n as [|n IH]; simpl; [reflexivity|now rewrite IH]. Qed.

Lemma count_char_repeat (c : ascii) (n : nat) :
  count_char c (repeat_char c n) = n.
Proof.
  induction n as [|n IH]; simpl; [reflexivity|].
  now rewrite Ascii.eqb_refl, IH.
Qed.

Lemma strip_prefix_spec (p s r : string) :
  strip_prefix p s = Some r -> s = (p ++ r)%string.
Proof.
  revert s. induction p as [|a p IH]; intros s H; simpl in *.
  - now injection H as ->.
  - destruct s as [|b s]; [discriminate|].
    destruct (Ascii.eqb_spec a b) as [->|]; [|discriminate].
    f_equal. now apply IH.
Qed.

Lemma strip_prefix_app (p r : string) :
  strip_prefix p (p ++ r) = Some r.
Proof.
  induction p as [|a p IH]; simpl; [reflexivity|].
  now rewrite Ascii.eqb_refl.
Qed.

Lemma span_spec (pred : ascii -> bool) (s : string) :
  s = (fst (span pred s) ++ snd (span pred s))%string /\
  all_chars pred (fst (span pred s)) = true.
Proof.
  induction s as [|c s [IH1 IH2]]; simpl; [now split|].
  destruct (pred c) eqn:E; simpl.
  - rewrite E, IH2. split; [now f_equal|reflexivity].
  - now split.
Qed.

Lemma span_app (pred : ascii -> bool) (pre t : string) :
  all_chars pred pre = true ->
  match t with
  | EmptyString => True
  | String c _ => pred c = false
  end ->
  span pred (pre ++ t) = (pre, t).
Proof.
  intros Hpre Ht. induction pre as [|c pre IH]; simpl in *.
  - destruct t as [|c t]; [reflexivity|]. simpl. now rewrite Ht.
  - apply andb_true_iff in Hpre. destruct Hpre as [Hc Hpre].
    rewrite Hc, (IH Hpre). reflexivity.
Qed.

(** What [match_block] accepts: a keyword, white space, and a braced
    content without a closing brace. *)
Lemma match_block_sound (s content rest : string) :
  DataformTemplater.match_block s = Some (content, rest) ->
  exists kw ws : string,
    (kw = "config" \/ kw = "js")%string /\
    all_chars is_space ws = true /\
    all_chars (fun c => negb (Ascii.eqb c "}")) content = true /\
    s = (kw ++ ws ++ "{" ++ content ++ "}" ++ rest)%string.
Proof.
  unfold DataformTemplater.match_block. intros H.
  destruct (match strip_prefix "config" s with
            | Some r => Some r
            | None => strip_prefix "js" s
            end) as [r|] eqn:Ekw; [|discriminate].
  assert (Hkw : exists kw, (kw = "config" \/ kw = "js")%string /\
                           s = (kw ++ r)%string).
  { destruct (strip_prefix "config" s) as [r'|] eqn:E.
    - injection Ekw as <-. exists "config"%string. split; [now left|].
      now apply strip_prefix_spec.
    - exists "js"%string. split; [now right|]. now apply strip_prefix_spec. }
  destruct Hkw as (kw & Hkw & Hs).
  destruct (span_spec is_space r) as [Hr Hws].
  destruct (strip_prefix "{" (snd (span is_space r))) as [r1|] eqn:Eopen;
    [|discriminate].
  apply strip_prefix_spec in Eopen. cbv zeta in H.
  destruct (span_spec (fun c => negb (Ascii.eqb c "}")) r1) as [Hr1 Hc].
  destruct (strip_prefix "}" (snd (span _ r1))) as [r2|] eqn:Eclose;
    [|discriminate].
  apply strip_prefix_spec in Eclose. injection H as <- <-.
  exists kw, (fst (span is_space r)). repeat split; try assumption.
  rewrite Hs. f_equal. rewrite Hr at 1. f_equal.
  rewrite Eopen. f_equal. rewrite Hr1 at 1. f_equal. exact Eclose.
Qed.

Lemma match_block_complete (kw ws content rest : string) :
  (kw = "config" \/ kw = "js")%string ->
  all_chars is_space ws = true ->
  all_chars (fun c => negb (Ascii.eqb c "}")) content = true ->
  DataformTemplater.match_block (kw ++ ws ++ "{" ++ content ++ "}" ++ rest) =
  Some (content, rest).
Proof.
  intros Hkw Hws Hc. unfold DataformTemplater.match_block.
  assert (Hstrip : match strip_prefix "config"
                           (kw ++ ws ++ "{" ++ content ++ "}" ++ rest) with
                   | Some r => Some r
                   | None => strip_prefix "js"
                               (kw ++ ws ++ "{" ++ content ++ "}" ++ rest)
                   end = Some (ws ++ "{" ++ content ++ "}" ++ rest)%string).
  { destruct Hkw as [-> | ->]; reflexivity. }
  rewrite Hstrip.
  rewrite (span_app is_space ws) by (assumption || reflexivity).
  cbn [snd]. rewrite (strip_prefix_app "{"). cbv zeta.
  rewrite (span_app _ content) by (assumption || reflexivity).
  cbn [fst snd]. now rewrite (strip_prefix_app "}").
Qed.

Lemma replace_blocks_match (self : templater) (s content rest : string) :
  DataformTemplater.match_block s = Some (content, rest) ->
  DataformTemplater._replace_blocks_with_newline self s =
  (DataformTemplater.replace content ++
   DataformTemplater._replace_blocks_with_newline self rest)%string.
Proof.
  funelim (DataformTemplater._replace_blocks_with_newline self s);
    intros Hm; try congruence.
  discriminate Hm.
Qed.

Lemma replace_blocks_no_match (self : templater) (c : ascii) (s : string) :
  DataformTemplater.match_block (String c s) = None ->
  DataformTemplater._replace_blocks_with_newline self (String c s) =
  String c (DataformTemplater._replace_blocks_with_newline self s).
Proof.
  intros Hm.
  funelim (DataformTemplater._replace_blocks_with_newline self (String c s));
    try congruence.
Qed.



Lemma count_char_tail_zero (c b : ascii) (s : string) :
  count_char c (String b s) = 0%nat -> count_char c s = 0%nat.
Proof. simpl. destruct (Ascii.eqb b c); [discriminate|trivial]. Qed.

(** X16: a text that has no opening brace, or no closing brace, is
    returned unchanged by [_replace_blocks_with_newline]. *)
Theorem replace_blocks_without_braces (self : templater) (in_str : string) :
  count_char "{" in_str = 0%nat \/ count_char "}" in_str = 0%nat ->
  DataformTemplater._replace_blocks_with_newline self in_str = in_str.
Proof.
  funelim (DataformTemplater._replace_blocks_with_newline self in_str);
    intros Hno; try clear Heqcall.
  - exfalso.
    match goal with
    | Hm : DataformTemplater.match_block _ = Some _ |- _ =>
        destruct (match_block_sound _ _ _ Hm) as (kw & ws & _ & _ & _ & Hs)
    end.
    rewrite Hs in Hno. rewrite !count_char_append in Hno. simpl in Hno.
    destruct Hno; lia.
  - reflexivity.
  - f_equal. apply H.
    destruct Hno as [Hno|Hno]; [left|right];
      exact (count_char_tail_zero _ _ _ Hno).
Qed.

Lemma replace_blocks_without_braces_witness :
  DataformTemplater._replace_blocks_with_newline dataform_instance
    "SELECT 1 AS config, 2 AS js" =
  "SELECT 1 AS config, 2 AS js"%string.
Proof.
  apply (replace_blocks_without_braces dataform_instance
           "SELECT 1 AS config, 2 AS js").
  left. reflexivity.
Defined.

(** X17: [_replace_blocks_with_newline] never makes the text longer and
    never adds line breaks: the result has at most as many characters
    and at most as many line breaks as the input. *)
Theorem replace_blocks_shrinks (self : templater) (in_str : string) :
  (String.length (DataformTemplater._replace_blocks_with_newline self in_str)
     <= String.length in_str)%nat /\
  (count_char "010"
     (DataformTemplater._replace_blocks_with_newline self in_str)
     <= count_char "010" in_str)%nat.
Proof.
  funelim (DataformTemplater._replace_blocks_with_newline self in_str);
    try clear Heqcall.
  - match goal with
    | Hm : DataformTemplater.match_block _ = Some _ |- _ =>
        destruct (match_block_sound _ _ _ Hm) as (kw & ws & _ & _ & _ & Hs)
    end.
    destruct H as [Hlen Hcount].
    unfold DataformTemplater.replace.
    rewrite length_append, count_char_append, repeat_char_length,
      count_char_repeat.
    pose proof (count_char_le_length "010" block_content).
    rewrite Hs. rewrite !length_append, !count_char_append. simpl. lia.
  - simpl. lia.
  - destruct H as [Hlen Hcount]. simpl. destruct (Ascii.eqb c "010"); lia.
Qed.

(** X18: a block at the front of the text (the keyword [config] or
    [js], white space, and a braced content without a closing brace) is
    replaced by as many line breaks as its content has, and the rest of
    the text is rewritten in the same way; when the white space between
    the keyword and the brace has no line break, the replacement has
    exactly as many line breaks as the whole block, so the lines that
    follow keep their numbers. *)
Theorem replace_blocks_leading_block (self : templater)
    (kw ws content rest : string) :
  (kw = "config" \/ kw = "js")%string ->
  all_chars is_space ws = true ->
  all_chars (fun c => negb (Ascii.eqb c "}")) content = true ->
  DataformTemplater._replace_blocks_with_newline self
    (kw ++ ws ++ "{" ++ content ++ "}" ++ rest) =
  (repeat_char "010" (count_char "010" content) ++
   DataformTemplater._replace_blocks_with_newline self rest)%string /\
  (count_char "010" ws = 0%nat ->
   count_char "010" (repeat_char "010" (count_char "010" content)) =
   count_char "010" (kw ++ ws ++ "{" ++ content ++ "}")).
Proof.
  intros Hkw Hws Hc. split.
  - apply replace_blocks_match. now apply match_block_complete.
  - intros Hnl. rewrite count_char_repeat, !count_char_append, Hnl.
    destruct Hkw as [-> | ->]; simpl; lia.
Qed.

Lemma replace_blocks_leading_block_witness :
  DataformTemplater._replace_blocks_with_newline dataform_instance
    ("config" ++ " " ++ "{" ++ three_lines ++ "}" ++ "SELECT 1") =
  (repeat_char "010" (count_char "010" three_lines) ++
   DataformTemplater._replace_blocks_with_newline dataform_instance "SELECT 1")%string /\
  (count_char "010" " " = 0%nat ->
   count_char "010" (repeat_char "010" (count_char "010" three_lines)) =
   count_char "010" ("config" ++ " " ++ "{" ++ three_lines ++ "}")).
Proof.
  apply (replace_blocks_leading_block dataform_instance "config" " "
           three_lines "SELECT 1").
  - now left.
  - reflexivity.
  - reflexivity.
Defined.

Lemma replace_ref_match (self : templater) (s g1 rest : string)
    (g2 : option string) :
  DataformTemplater.match_ref s = Some (g1, g2, rest) ->
  DataformTemplater.replace_ref_with_bq_table self s =
  (DataformTemplater.ref_to_table self g1 g2 ++
   DataformTemplater.replace_ref_with_bq_table self rest)%string.
Proof.
  funelim (DataformTemplater.replace_ref_with_bq_table self s);
    intros Hm; try congruence.
  discriminate Hm.
Qed.

Lemma match_ref_starts_with_dollar (s : string) (x : string * option string * string) :
  DataformTemplater.match_ref s = Some x -> exists t, s = String "$" t.
Proof.
  unfold DataformTemplater.match_ref. cbv zeta.
  destruct (strip_prefix "${ref('" s) as [r|] eqn:E; [|discriminate].
  intros _. apply strip_prefix_spec in E. rewrite E. simpl. eauto.
Qed.

Lemma match_ref_one_argument (name rest : string) :
  name <> EmptyString ->
  all_chars (fun c => negb (Ascii.eqb c "'")) name = true ->
  DataformTemplater.match_ref ("${ref('" ++ name ++ "')}" ++ rest) =
  Some (name, None, rest).
Proof.
  intros Hne Hname. unfold DataformTemplater.match_ref. cbv zeta.
  rewrite (strip_prefix_app "${ref('").
  rewrite (span_app _ name) by (assumption || reflexivity).
  cbn [fst snd]. destruct name as [|c name]; [congruence|].
  reflexivity.
Qed.

Lemma match_ref_two_arguments (dataset name rest : string) :
  dataset <> EmptyString -> name <> EmptyString ->
  all_chars (fun c => negb (Ascii.eqb c "'")) dataset = true ->
  all_chars (fun c => negb (Ascii.eqb c "'")) name = true ->
  DataformTemplater.match_ref
    ("${ref('" ++ dataset ++ "', '" ++ name ++ "')}" ++ rest) =
  Some (dataset, Some name, rest).
Proof.
  intros Hd Hn Hdataset Hname. unfold DataformTemplater.match_ref. cbv zeta.
  rewrite (strip_prefix_app "${ref('").
  rewrite (span_app _ dataset) by (assumption || reflexivity).
  cbn [fst snd]. destruct dataset as [|c dataset]; [congruence|].
  change (strip_prefix "'" ("', '" ++ name ++ "')}" ++ rest))
    with (Some (", '" ++ name ++ "')}" ++ rest)%string).
  cbv iota beta.
  change (strip_prefix ", '" (", '" ++ name ++ "')}" ++ rest))
    with (Some (name ++ "')}" ++ rest)%string).
  cbv iota beta.
  rewrite (span_app _ name) by (assumption || reflexivity).
  cbn [fst snd]. destruct name as [|c' name]; [congruence|].
  reflexivity.
Qed.

(** X19: a text without a dollar sign is returned unchanged by
    [replace_ref_with_bq_table]. *)
Theorem replace_ref_without_dollar (self : templater) (sql : string) :
  count_char "$" sql = 0%nat ->
  DataformTemplater.replace_ref_with_bq_table self sql = sql.
Proof.
  funelim (DataformTemplater.replace_ref_with_bq_table self sql);
    intros Hno; try clear Heqcall.
  - exfalso.
    match goal with
    | Hm : DataformTemplater.match_ref _ = Some _ |- _ =>
        destruct (match_ref_starts_with_dollar _ _ Hm) as (t & Hs)
    end.
    rewrite Hs in Hno. simpl in Hno. discriminate.
  - reflexivity.
  - f_equal. apply H. exact (count_char_tail_zero _ _ _ Hno).
Qed.

Lemma replace_ref_without_dollar_witness :
  DataformTemplater.replace_ref_with_bq_table dataform_instance
    "SELECT ref('t') FROM x" =
  "SELECT ref('t') FROM x"%string.
Proof.
  apply (replace_ref_without_dollar dataform_instance "SELECT ref('t') FROM x").
  reflexivity.
Defined.

(** X20: once [sequence_files] has read the configuration, a reference
    at the front of the text with one quoted argument is replaced by
    the back-quoted name made of the configured project, the configured
    dataset and the argument; with two quoted arguments, by the
    configured project, the first argument as dataset and the second as
    model name; a section missing from the configuration is written
    [None].  The rest of the text is rewritten in the same way, and
    [sequence_files] returns the file names as given. *)
Theorem replace_ref_leading_reference (self : templater)
    (fnames : list string) (config : list string -> option string)
    (dataset name rest : string) :
  __class__ self = DataformTemplater_class ->
  dataset <> EmptyString -> name <> EmptyString ->
  all_chars (fun c => negb (Ascii.eqb c "'")) dataset = true ->
  all_chars (fun c => negb (Ascii.eqb c "'")) name = true ->
  let self' := fst (DataformTemplater.sequence_files self fnames config) in
  let project :=
    format_attr (config ["templater"; "dataform"; "project_id"]%string) in
  let configured :=
    format_attr (config ["templater"; "dataform"; "dataset_id"]%string) in
  snd (DataformTemplater.sequence_files self fnames config) = fnames /\
  DataformTemplater.replace_ref_with_bq_table self'
    ("${ref('" ++ name ++ "')}" ++ rest) =
  ("`" ++ project ++ "." ++ configured ++ "." ++ name ++ "`" ++
   DataformTemplater.replace_ref_with_bq_table self' rest)%string /\
  DataformTemplater.replace_ref_with_bq_table self'
    ("${ref('" ++ dataset ++ "', '" ++ name ++ "')}" ++ rest) =
  ("`" ++ project ++ "." ++ dataset ++ "." ++ name ++ "`" ++
   DataformTemplater.replace_ref_with_bq_table self' rest)%string.
Proof.
  intros Hcls Hd Hn Hdataset Hname self' project configured.
  split; [reflexivity|]. split.
  - rewrite (replace_ref_match self' _ name rest None)
      by (now apply match_ref_one_argument).
    unfold DataformTemplater.ref_to_table, self',
      DataformTemplater.sequence_files.
    cbn [fst project_id dataset_id]. rewrite Hcls. cbn [class_name].
    fold project. fold configured.
    now rewrite !append_assoc.
  - rewrite (replace_ref_match self' _ dataset rest (Some name))
      by (now apply match_ref_two_arguments).
    unfold DataformTemplater.ref_to_table, self',
      DataformTemplater.sequence_files.
    cbn [fst project_id dataset_id]. rewrite Hcls. cbn [class_name].
    fold project.
    now rewrite !append_assoc.
Qed.

Lemma replace_ref_leading_reference_witness :
  snd (DataformTemplater.sequence_files dataform_instance
         ["a.sqlx"%string] example_config) = ["a.sqlx"%string] /\
  DataformTemplater.replace_ref_with_bq_table
    (fst (DataformTemplater.sequence_files dataform_instance
            ["a.sqlx"%string] example_config))
    ("${ref('" ++ "t" ++ "')}" ++ "") =
  ("`" ++ "p" ++ "." ++ "d" ++ "." ++ "t" ++ "`" ++
   DataformTemplater.replace_ref_with_bq_table
     (fst (DataformTemplater.sequence_files dataform_instance
             ["a.sqlx"%string] example_config)) "")%string /\
  DataformTemplater.replace_ref_with_bq_table
    (fst (DataformTemplater.sequence_files dataform_instance
            ["a.sqlx"%string] example_config))
    ("${ref('" ++ "x" ++ "', '" ++ "t" ++ "')}" ++ "") =
  ("`" ++ "p" ++ "." ++ "x" ++ "." ++ "t" ++ "`" ++
   DataformTemplater.replace_ref_with_bq_table
     (fst (DataformTemplater.sequence_files dataform_instance
             ["a.sqlx"%string] example_config)) "")%string.
Proof.
  apply (replace_ref_leading_reference dataform_instance ["a.sqlx"%string]
           example_config "x" "t" ""); reflexivity || discriminate.
Defined.

(** ** Further properties: walking through a text *)

Lemma line_pos_of_succ (s : string) (o line col : Z) :
  0 <= o ->
  line_pos_of (newline_offsets s) o = (line, col) ->
  line_pos_of (newline_offsets s) (o + 1) =
  if is_newline_at s (Z.to_nat o) then (line + 1, 1) else (line, col + 1).
Proof.
  intros Ho Hcur.
  destruct (is_newline_at s (Z.to_nat o)) eqn:Hnl.
  - assert (Hg : greatest_newline_below s (o + 1) o).
    { unfold greatest_newline_below, newline_offset.
      repeat split; try lia. assumption. }
    rewrite (line_pos_of_greatest _ _ _ Hg).
    pose proof (line_pos_of_line (newline_offsets s) o) as Hl.
    rewrite Hcur in Hl. simpl fst in Hl.
    rewrite leading_below_count in Hl.
    f_equal; lia.
  - assert (Hgap : leading_below (newline_offsets s) o =
                   leading_below (newline_offsets s) (o + 1)).
    { apply leading_below_gap; [lia|].
      intros x Hx Hr. apply in_newline_offsets in Hx. destruct Hx as [_ Hx].
      replace x with o in Hx by lia. congruence. }
    unfold line_pos_of in *. rewrite <- Hgap.
    destruct (leading_below (newline_offsets s) o);
      injection Hcur as <- <-; f_equal; lia.
Qed.

(** X21: offset 0 is line 1, column 1, and going from a non-negative
    offset to the next one moves to column 1 of the next line when the
    character at the offset is a line break, and one column to the
    right on the same line otherwise (also past the end of the text). *)
Theorem line_pos_step (source_str : string)
    (templated_str fname : option string)
    (sliced_file : option (list sliced_elem)) (source : bool) :
  let self := TemplatedFile.__init__ source_str templated_str fname sliced_file in
  let text := selected_text self source in
  TemplatedFile.get_line_pos_of_char_pos self 0 source = Returns (1, 1) /\
  forall char_pos, 0 <= char_pos ->
    exists line col,
      TemplatedFile.get_line_pos_of_char_pos self char_pos source =
        Returns (line, col) /\
      TemplatedFile.get_line_pos_of_char_pos self (char_pos + 1) source =
        Returns (if is_newline_at text (Z.to_nat char_pos)
                 then (line + 1, 1) else (line, col + 1)).
Proof.
  intros self text. split.
  - unfold self. rewrite get_line_pos_of_char_pos_init.
    rewrite line_pos_of_first_line; [reflexivity|]. intros n [Hn _]. exact Hn.
  - intros char_pos Hpos. unfold self.
    rewrite !get_line_pos_of_char_pos_init. fold self. fold text.
    destruct (line_pos_of (newline_offsets text) char_pos) as [line col] eqn:E.
    exists line, col. split; [reflexivity|].
    now rewrite (line_pos_of_succ text char_pos line col Hpos E).
Qed.

Lemma line_pos_step_witness :
  exists line col,
    TemplatedFile.get_line_pos_of_char_pos
      (TemplatedFile.__init__ three_lines None None None) 4 true =
      Returns (line, col) /\
    TemplatedFile.get_line_pos_of_char_pos
      (TemplatedFile.__init__ three_lines None None None) (4 + 1) true =
      Returns (if is_newline_at
                    (selected_text
                       (TemplatedFile.__init__ three_lines None None None) true)
                    (Z.to_nat 4)
               then (line + 1, 1) else (line, col + 1)).
Proof.
  apply (proj2 (line_pos_step three_lines None None None true) 4). lia.
Defined.
